(** * generate_feedback.py: the meta-feedback pipeline, embedded and verified

    A shallow embedding of [scripts/generate_feedback.py]: the checkpoint
    store ([get_last_processed], [set_last_processed]), the change-set
    collector ([git_diff]), the content classifier
    ([detect_content_status], [describe_content_status]) and the
    orchestrator ([main]), run as the script runs them (module level first,
    then [main]).

    Conventions.
    - A Python [str] is a list of Unicode code points ([str := list N]);
      [len] and slices are [len] and [slice_to].
    - The outside world the script talks to (the shell, the clock, the
      chat-completion service, the test directory) is a record of oracles
      [Env]; what the script can change (the state directory with its
      checkpoint file, the files of the working directory) is [Sys], where
      every effect is also logged in a trace of [event]s.
    - A Python exception is a value of [exn]; a computation is a function
      [Sys -> result A * Sys], so that the effects made before an exception
      are kept, as in Python.

    Assumptions on the world.
    - [.meta-feedback], when it exists, is a directory, and [state.json] in
      it a regular file; the file system takes every write, so that
      writing fails only where Python itself refuses: the state file cannot
      be created in a missing directory, and a text with a lone surrogate
      cannot be encoded as UTF-8.
    - A shell command is known by its output only: what it does to the
      file system is not modelled.
    - The state file is kept as [json.loads] parses it, and the value of
      [last_processed] is a string or null, as the annotation
      [str | None] of [get_last_processed] says.
    - [json], [re], [str] methods and [textwrap.dedent] are those of
      CPython; the functions below follow their definitions. *)

From stdpp Require Import base option list gmap strings pretty.
From Stdlib Require Import ZArith NArith Lia.
From Stdlib Require Ascii String.

Local Open Scope N_scope.
Local Open Scope list_scope.

(* ===================================================================== *)
(** ** Text *)
(* ===================================================================== *)

Abbreviation str := (list N).

(** A literal of the source.  The literals below are ASCII; the two
    non-ASCII characters of the source are given by their code points
    ([approx], [em_dash]). *)
Definition lit (s : string) : str :=
  Ascii.N_of_ascii <$> String.list_ascii_of_string s.

Definition nl : N := 10.
Definition approx : N := 8776.
Definition em_dash : N := 8212.
Definition dquote : N := 34.
Definition squote : N := 39.

(** [str.isspace] for one character; the same set is what [\s] matches in
    a [str] pattern of [re]. *)
Definition isspace (c : N) : bool :=
  ((9 <=? c) && (c <=? 13)) || ((28 <=? c) && (c <=? 32))
  || (c =? 133) || (c =? 160) || (c =? 5760)
  || ((8192 <=? c) && (c <=? 8202))
  || (c =? 8232) || (c =? 8233) || (c =? 8239) || (c =? 8287)
  || (c =? 12288).

Fixpoint lstrip (s : str) : str :=
  match s with
  | c :: r => if isspace c then lstrip r else s
  | [] => []
  end.

(** [s.strip()] *)
Definition strip (s : str) : str := reverse (lstrip (reverse (lstrip s))).

(** [s.startswith(p)] *)
Fixpoint startswith (p s : str) : bool :=
  match p, s with
  | [], _ => true
  | a :: p', b :: s' => (a =? b) && startswith p' s'
  | _ :: _, [] => false
  end.

(** Index of the first occurrence of [p] in [s] ([s.find(p)], [None] for
    -1). *)
Fixpoint find (p s : str) : option nat :=
  if startswith p s then Some 0%nat
  else match s with
       | [] => None
       | _ :: r => S <$> find p r
       end.

(** [p in s] *)
Definition contains (p s : str) : bool := bool_decide (is_Some (find p s)).

(** The line boundaries of [str.splitlines]. *)
Definition is_linebreak (c : N) : bool :=
  ((10 <=? c) && (c <=? 13)) || ((28 <=? c) && (c <=? 30))
  || (c =? 133) || (c =? 8232) || (c =? 8233).

(** [s.splitlines()]: [cur] holds the current line, reversed. *)
Fixpoint splitlines_go (cur : str) (s : str) : list str :=
  match s with
  | [] => match cur with [] => [] | _ => [reverse cur] end
  | c :: r =>
      if is_linebreak c then
        reverse cur ::
          match r with
          | c' :: r' =>
              if (c =? 13) && (c' =? 10) then splitlines_go [] r'
              else splitlines_go [] r
          | [] => []
          end
      else splitlines_go (c :: cur) r
  end.

Definition splitlines (s : str) : list str := splitlines_go [] s.

(** [s.split(sep)] for a one-character separator: always at least one
    field. *)
Fixpoint split_on (sep : N) (s : str) : list str :=
  match s with
  | [] => [[]]
  | c :: r =>
      if c =? sep then [] :: split_on sep r
      else match split_on sep r with
           | l :: ls => (c :: l) :: ls
           | [] => [[c]]
           end
  end.

(** [sep.join(parts)] *)
Fixpoint join (sep : str) (parts : list str) : str :=
  match parts with
  | [] => []
  | [p] => p
  | p :: ps => p ++ sep ++ join sep ps
  end.

(** [len(s)] and [s[:n]] for a Python [int] [n >= 0]. *)
Definition len (s : str) : Z := Z.of_nat (length s).
Definition slice_to (n : Z) (s : str) : str := take (Z.to_nat n) s.

(** [a or b] on strings: the empty string is falsy. *)
Definition str_or (a b : str) : str :=
  match a with [] => b | _ => a end.

(** [f"{n}"] for an [int]. *)
Definition fmt_int (n : Z) : str := lit (pretty n).

(** A number in decimal with at least two digits ([%m], [%d], [%H], [%M]
    of [strftime]). *)
Definition two_digits (n : N) : str :=
  if n <? 10 then 48 :: lit (pretty n) else lit (pretty n).

(** The code points UTF-8 does not encode: the surrogates. *)
Definition is_surrogate (c : N) : bool := (55296 <=? c) && (c <=? 57343).

(** [s.encode("utf-8")] succeeds. *)
Definition encodable (s : str) : bool :=
  forallb (λ c, negb (is_surrogate c)) s.

Definition hex_digit (n : N) : N :=
  if n <? 10 then 48 + n else 87 + n.

(** [\uXXXX] as [repr] writes a surrogate. *)
Definition escape_u (c : N) : str :=
  [92; 117; hex_digit (c / 4096); hex_digit (c / 256 mod 16);
   hex_digit (c / 16 mod 16); hex_digit (c mod 16)].

(** Where the first run of surrogates of a text starts, and how long it
    is. *)
Fixpoint surrogate_run_length (s : str) : nat :=
  match s with
  | c :: r => if is_surrogate c then S (surrogate_run_length r) else 0
  | [] => 0
  end.

Fixpoint first_surrogate (s : str) : option (nat * N * nat) :=
  match s with
  | [] => None
  | c :: r =>
      if is_surrogate c then Some (0%nat, c, surrogate_run_length s)
      else match first_surrogate r with
           | Some (i, c', k) => Some (S i, c', k)
           | None => None
           end
  end.

(** [str(e)] of the [UnicodeEncodeError] that encoding [s] raises. *)
Definition encode_error_text (s : str) : str :=
  match first_surrogate s with
  | Some (i, c, 1%nat) =>
      lit "'utf-8' codec can't encode character '" ++ escape_u c
      ++ lit "' in position " ++ lit (pretty i)
      ++ lit ": surrogates not allowed"
  | Some (i, c, k) =>
      lit "'utf-8' codec can't encode characters in position "
      ++ lit (pretty i) ++ lit "-" ++ lit (pretty (i + k - 1)%nat)
      ++ lit ": surrogates not allowed"
  | None => []
  end.

(* ===================================================================== *)
(** ** The regular-expression substitutions of the two strippers *)
(* ===================================================================== *)

(** [re.sub(r"#.*", "", text)]: without DOTALL the dot stops at a line
    feed, so every [#] is removed with the rest of its line. *)
Fixpoint sub_hash_comments (in_comment : bool) (s : str) : str :=
  match s with
  | [] => []
  | c :: r =>
      if in_comment then
        if c =? nl then c :: sub_hash_comments false r
        else sub_hash_comments true r
      else if c =? 35 then sub_hash_comments true r
      else c :: sub_hash_comments false r
  end.

(** [re.sub(OPEN + r"[\s\S]*?" + CLOSE, "", text)] for literal delimiters:
    a scanner that drops every span from an opening delimiter to the
    nearest closing one.  A span is entered only when a closing delimiter
    follows the opening one (otherwise the pattern matches nowhere from
    there on and the rest is kept); [skip] counts the characters of a
    delimiter still to drop, [inside] says that a span is open. *)
Fixpoint sub_spans (open close : str) (skip : nat) (inside : bool)
    (s : str) : str :=
  match s with
  | [] => []
  | c :: r =>
      match skip with
      | S k => sub_spans open close k inside r
      | O =>
          if inside then
            if startswith close s
            then sub_spans open close (pred (length close)) false r
            else sub_spans open close 0 true r
          else if startswith open s
                  && bool_decide (is_Some (find close (drop (length open) s)))
          then sub_spans open close (pred (length open)) true r
          else c :: sub_spans open close 0 false r
      end
  end.

Definition sub_delimited (open close : str) (s : str) : str :=
  sub_spans open close 0 false s.

(** [re.sub(r"\s+", "", text)] *)
Definition sub_whitespace (s : str) : str :=
  filter (λ c, isspace c = false) s.

(** [re.sub(r"[#>*`_~\-]", "", text)] *)
Definition is_md_markup (c : N) : bool :=
  (c =? 35) || (c =? 62) || (c =? 42) || (c =? 96) || (c =? 95)
  || (c =? 126) || (c =? 45).

Definition sub_md_markup (s : str) : str :=
  filter (λ c, is_md_markup c = false) s.

Definition triple (c : N) : str := [c; c; c].

Definition strip_comments_and_ws_py (text : str) : str :=
  let text := sub_hash_comments false text in
  let text := sub_delimited (triple dquote) (triple dquote) text in
  let text := sub_delimited (triple squote) (triple squote) text in
  sub_whitespace text.

Definition strip_md (text : str) : str :=
  let text := sub_delimited (triple 96) (triple 96) text in
  let text := sub_delimited (lit "<!--") (lit "-->") text in
  let text := sub_md_markup text in
  sub_whitespace text.

(* ===================================================================== *)
(** ** [textwrap.dedent] *)
(* ===================================================================== *)

(** The library function as CPython defines it: lines are separated by
    line feeds only; a line of blanks and tabs only becomes empty; the
    margin is the longest common prefix of the leading blanks and tabs of
    the remaining non-empty lines; the margin is removed from every line
    that starts with it. *)
Definition is_blank (c : N) : bool := (c =? 32) || (c =? 9).

Definition normalize_blank_line (l : str) : str :=
  if forallb is_blank l then [] else l.

Fixpoint leading_blanks (l : str) : str :=
  match l with
  | c :: r => if is_blank c then c :: leading_blanks r else []
  | [] => []
  end.

Fixpoint common_prefix (a b : str) : str :=
  match a, b with
  | x :: a', y :: b' => if x =? y then x :: common_prefix a' b' else []
  | _, _ => []
  end.

Definition margin_of (lines : list str) : str :=
  match leading_blanks <$> filter (λ l, l ≠ []) lines with
  | [] => []
  | i :: rest => foldl common_prefix i rest
  end.

Definition remove_margin (margin l : str) : str :=
  if startswith margin l then drop (length margin) l else l.

Definition dedent (text : str) : str :=
  let lines := normalize_blank_line <$> split_on nl text in
  join [nl] (remove_margin (margin_of lines) <$> lines).

(* ===================================================================== *)
(** ** Exceptions, the environment, the store *)
(* ===================================================================== *)

Inductive exn_class :=
  | CalledProcessError | IndexError | FileNotFoundError
  | JSONDecodeError | AttributeError | ServiceError | UnicodeEncodeError.

(** An exception ([Exception] or a subclass); [exn_text e] is [str(e)]. *)
Record exn := Exn { exn_kind : exn_class; exn_text : str }.

Inductive result (A : Type) :=
  | Ok (a : A)
  | Raise (e : exn).
Arguments Ok {A} a.
Arguments Raise {A} e.

(** What [datetime.datetime.utcnow()] returns. *)
Record datetime := {
  dt_year : N;
  dt_month : N;
  dt_day : N;
  dt_hour : N;
  dt_minute : N;
  dt_second : N;
  dt_microsecond : N;
}.

(** [t.strftime("%Y%m%d_%H%M")]; the year is written as it is (four digits
    from the year 1000 on). *)
Definition strftime_stamp (t : datetime) : str :=
  lit (pretty (dt_year t)) ++ two_digits (dt_month t) ++ two_digits (dt_day t)
  ++ [95] ++ two_digits (dt_hour t) ++ two_digits (dt_minute t).

(** The world outside the script, fixed during one run. *)
Record Env := {
  (** [subprocess.check_output(cmd, shell=True, text=True, ...)]: the
      output, or the error of a non-zero exit *)
  subprocess : str → result str;
  (** [TEST_DIR.glob("test_*.py")], [None] when [tests/] does not exist *)
  tests_dir : option (list str);
  (** [datetime.datetime.utcnow()] *)
  utcnow : datetime;
  (** the chat-completion request of [call_gpt]: the content of the first
      choice, or the exception of the client *)
  chat : str → str → result str;
}.

(** What [.meta-feedback/state.json] holds.  [json.loads] of the file is
    kept parsed: an object maps its keys to values, and the value of a key
    is a string or null (the annotation of [get_last_processed] is
    [str | None]); [JOther] is any document that is not an object;
    [Unparseable] is a file that [read_text] or [json.loads] rejects. *)
Inductive jval := JNull | JStr (s : str).
Inductive json := JObject (d : gmap str jval) | JOther.
Inductive state_file := NoFile | Unparseable | Document (j : json).

(** [.meta-feedback], absent or a directory with its state file. *)
Inductive state_dir := NoDir | Dir (f : state_file).

Inductive event :=
  | EMkdir                         (** [STATE_DIR.mkdir] created the directory *)
  | ERun (cmd : str)               (** [sh] ran a command *)
  | EGenerate (system user : str)  (** [call_gpt] sent a request *)
  | EWriteFile (path text : str)   (** [write_feedback] wrote the artifact *)
  | ETruncate (path : str)         (** [write_feedback] opened the artifact
                                       and could not encode the text *)
  | EWriteState (sha : str)        (** [set_last_processed] wrote the state *)
  | EPrint (line : str).

(** The mutable part: the state directory, the text files of the working
    directory by path (a path that is absent or cannot be read as UTF-8 is
    no key), and the effects so far, oldest first. *)
Record Sys := {
  state : state_dir;
  files : gmap str str;
  trace : list event;
}.

#[global] Instance event_eq_dec : EqDecision event.
Proof. solve_decision. Defined.

Definition M (A : Type) : Type := Sys → result A * Sys.

#[global] Instance M_ret : MRet M := λ A a s, (Ok a, s).
#[global] Instance M_bind : MBind M := λ A B f m s,
  match m s with
  | (Ok a, s') => f a s'
  | (Raise e, s') => (Raise e, s')
  end.

Definition raise {A} (e : exn) : M A := λ s, (Raise e, s).

(** [try: body  except Exception as e: handler(e)] *)
Definition try_except {A} (body : M A) (handler : exn → M A) : M A := λ s,
  match body s with
  | (Ok a, s') => (Ok a, s')
  | (Raise e, s') => handler e s'
  end.

Definition gets {A} (f : Sys → A) : M A := λ s, (Ok (f s), s).

Definition log (e : event) (s : Sys) : Sys :=
  {| state := state s; files := files s; trace := trace s ++ [e] |}.

Definition emit (e : event) : M unit := λ s, (Ok (), log e s).

Definition lift {A} (r : result A) : M A := λ s, (r, s).

Definition print (line : str) : M unit := emit (EPrint line).

(* ===================================================================== *)
(** ** Constants and prompts *)
(* ===================================================================== *)

Arguments lit : simpl never.

Definition CODE_FILE : str := lit "algorithm.py".
Definition PSEUDO_FILE : str := lit "PSEUDOCODE.md".
Definition LAST_PROCESSED : str := lit "last_processed".

(** [str(e)] of the [FileNotFoundError] on the state file. *)
Definition NO_STATE_FILE : str :=
  lit "[Errno 2] No such file or directory: '.meta-feedback/state.json'".

(** The commands handed to [sh]. *)
Definition CMD_HEAD : str := lit "git rev-parse HEAD".
Definition CMD_ROOT : str := lit "git rev-list --max-parents=0 HEAD".
Definition CMD_NAME_STATUS (base head : str) : str :=
  lit "git diff --name-status " ++ base ++ lit " " ++ head.
Definition CMD_SHORTSTAT (base head : str) : str :=
  lit "git diff --shortstat " ++ base ++ lit " " ++ head.
Definition CMD_PATCH (base head : str) : str :=
  lit "git diff --unified=0 " ++ base ++ lit " " ++ head.
Definition CMD_TREE : str := lit "ls -R | head -n 400".
Definition CMD_LOG : str :=
  lit "git log -n 10 --pretty=format:'%h %ad %s' --date=short".

(** A format string is a list of literal pieces and named fields;
    [format] is [str.format] with keyword arguments. *)
Inductive field :=
  | f_base | f_head | f_logs | f_tree | f_name_status | f_patch
  | f_content_summary.

Inductive piece := Text (s : str) | Hole (f : field).

Definition format (template : list piece) (args : field → str) : str :=
  concat ((λ p, match p with Text s => s | Hole f => args f end) <$> template).

Definition SYSTEM_PROMPT : str :=
  lit "You are a teaching assistant generating process-oriented meta-feedback for a university algorithms assignment.
Students may submit code (algorithm.py) OR pseudocode (PSEUDOCODE.md). English only.
Focus on actionable guidance about planning, implementation/pseudocode quality, validation (tests or worked examples), and reflection (complexity, invariants/exchange-argument, counterexamples).
If the repository is minimal or empty, you should still provide constructive, step-by-step guidance tailored to the detected state"
  ++ [em_dash] ++
  lit "do not assume a specific algorithm family (e.g., not necessarily greedy).
Be concise and structured; use Markdown with short bullets where helpful. Do NOT include boilerplate or generic platitudes.
".

Definition USER_PROMPT_TEMPLATE : list piece :=
  [ Text (lit "Generate process-focused meta-feedback for the latest change (");
    Hole f_base;
    Text (lit "..");
    Hole f_head;
    Text (lit ").

[Recent commits]
");
    Hole f_logs;
    Text (lit "

[Project tree (truncated)]
");
    Hole f_tree;
    Text (lit "

[Changed files (name-status)]
");
    Hole f_name_status;
    Text (lit "

[Diff (unified; may be truncated)]
```diff
");
    Hole f_patch;
    Text (lit "
```

[Repository content summary]
");
    Hole f_content_summary;
    Text (lit "

Use this structure:

Meta-Feedback (Process-Oriented)
Signals Observed

(What changed? Small-step commits? Clear messages?)

(Any structure/API changes? Added/removed helpers?)

Actionable Suggestions

Planning:

Implementation / Pseudocode quality:

Validation:

Reflection:

Technique-Specific Considerations (only if applicable)

Clearly state the chosen approach/criterion and why it fits the problem.

Mark an invariant OR outline an exchange/correctness sketch appropriate for the chosen technique.

Compare to a naive/baseline approach (correctness + complexity).

Walk through 2 tiny examples end-to-end.

Consider tricky or near-counterexample cases and how to detect/handle them.
") ].

(** The f-string of the [except] branch of [main], before [dedent]: every
    line of the literal carries the twelve blanks of its indentation in the
    source, the closing quotes included. *)
Definition indent12 : str := replicate 12 32.

Definition fallback_literal (e : exn) : str :=
  indent12 ++ lit "# Meta-Feedback (Process-Oriented)" ++ [nl]
  ++ indent12 ++ lit "The feedback service encountered an error: "
  ++ exn_text e ++ [nl]
  ++ indent12 ++ lit "Please retry the instructor-triggered workflow." ++ [nl]
  ++ indent12.

(* ===================================================================== *)
(** ** The script *)
(* ===================================================================== *)

Record ChangeSet := {
  name_status : str;
  shortstat : str;
  patch : str;
  tree : str;
  logs : str;
}.

Record ContentStatus := {
  code_len : Z;
  pseudo_len : Z;
  has_code : bool;
  has_pseudo : bool;
  tests_exist : bool;
}.

(** The sentences of [describe_content_status]. *)
Definition NO_SUBSTANCE : str := lit "No substantial code or pseudocode detected.".
Definition NO_TESTS : str := lit "No test files found under 'tests/'.".
Definition UNCLEAR : str := lit "Content status unclear.".

(** [describe_content_status]: the list [details], then the summary. *)
Definition details_of (status : ContentStatus) : list str :=
  (if has_code status
   then [lit "Detected non-trivial code in algorithm.py (" ++ [approx]
         ++ fmt_int (code_len status) ++ lit " chars after stripping)."]
   else [])
  ++ (if has_pseudo status
      then [lit "Detected non-trivial pseudocode in PSEUDOCODE.md ("
            ++ [approx] ++ fmt_int (pseudo_len status)
            ++ lit " chars after stripping)."]
      else [])
  ++ (if negb (has_code status) && negb (has_pseudo status)
      then [NO_SUBSTANCE]
      else [])
  ++ (if negb (tests_exist status)
      then [NO_TESTS]
      else []).

Definition describe_content_status (status : ContentStatus) : str :=
  match details_of status with
  | [] => UNCLEAR
  | details => join (lit " ") details
  end.

(** The keyword arguments of [USER_PROMPT_TEMPLATE.format] in [main]. *)
Definition prompt_args (last head : str) (d : ChangeSet)
    (content_summary : str) (f : field) : str :=
  match f with
  | f_base => slice_to 7 last
  | f_head => slice_to 7 head
  | f_logs => str_or (logs d) (lit "(none)")
  | f_tree => str_or (tree d) (lit "(none)")
  | f_name_status => str_or (name_status d) (lit "(none)")
  | f_patch =>
      match patch d with
      | [] => lit "(none)"
      | _ => slice_to 20000 (patch d)
      end
  | f_content_summary => content_summary
  end.

Section Script.

Variable env : Env.

(** Module level: [STATE_DIR.mkdir(exist_ok=True)]. *)
Definition module_init : M unit := λ s,
  match state s with
  | NoDir =>
      (Ok (), {| state := Dir NoFile; files := files s;
                 trace := trace s ++ [EMkdir] |})
  | Dir _ => (Ok (), s)
  end.

Definition sh (cmd : str) : M str :=
  emit (ERun cmd);;
  out ← lift (subprocess env cmd);
  mret (strip out).

Definition get_head : M str := sh CMD_HEAD.

Definition get_initial_commit : M str :=
  out ← sh CMD_ROOT;
  match splitlines out with
  | first :: _ => mret first
  | [] => raise (Exn IndexError (lit "list index out of range"))
  end.

Definition state_file_of (s : Sys) : state_file :=
  match state s with
  | NoDir => NoFile
  | Dir f => f
  end.

(** [json.loads(STATE_FILE.read_text())] *)
Definition load_state : M json := λ s,
  match state_file_of s with
  | Document j => (Ok j, s)
  | Unparseable => (Raise (Exn JSONDecodeError (lit "Expecting value")), s)
  | NoFile => (Raise (Exn FileNotFoundError NO_STATE_FILE), s)
  end.

(** [j.get(key)]; only a [dict] has the method. *)
Definition json_get (j : json) (key : str) : M (option str) :=
  match j with
  | JObject d =>
      mret (match d !! key with
            | Some (JStr v) => Some v
            | Some JNull | None => None
            end)
  | JOther => raise (Exn AttributeError (lit "object has no attribute 'get'"))
  end.

Definition get_last_processed : M (option str) :=
  exists_ ← gets (λ s, match state_file_of s with NoFile => false | _ => true end);
  if exists_ : bool then
    try_except (j ← load_state; json_get j LAST_PROCESSED)
               (λ _, mret None)
  else mret None.

(** [STATE_FILE.write_text(json.dumps({"last_processed": sha}, indent=2))];
    the file cannot be created when its directory is missing. *)
Definition set_last_processed (sha : str) : M unit := λ s,
  match state s with
  | Dir _ =>
      (Ok (), {| state := Dir (Document (JObject {[ LAST_PROCESSED := JStr sha ]}));
                 files := files s;
                 trace := trace s ++ [EWriteState sha] |})
  | NoDir => (Raise (Exn FileNotFoundError NO_STATE_FILE), s)
  end.

Definition git_diff (base head : str) : M ChangeSet :=
  name_status ← (if decide (base = head) then mret []
                 else sh (CMD_NAME_STATUS base head));
  shortstat ← (if decide (base = head) then mret []
               else sh (CMD_SHORTSTAT base head));
  patch ← (if decide (base = head) then mret []
           else sh (CMD_PATCH base head));
  tree ← try_except (sh CMD_TREE) (λ _, mret []);
  logs ← try_except (sh CMD_LOG) (λ _, mret []);
  mret {| name_status := name_status; shortstat := shortstat;
          patch := patch; tree := tree; logs := logs |}.

Definition now_stamp : M str := mret (strftime_stamp (utcnow env)).

(** [write_text] opens the file for writing, which empties it, and then
    encodes the text: a text with a lone surrogate leaves the file empty
    and raises. *)
Definition write_feedback (md : str) : M str :=
  stamp ← now_stamp;
  let out := lit "Meta-Feedback_" ++ stamp ++ lit ".md" in
  ((λ s,
      if encodable md
      then (Ok out, {| state := state s; files := <[out := md]> (files s);
                       trace := trace s ++ [EWriteFile out md] |})
      else (Raise (Exn UnicodeEncodeError (encode_error_text md)),
            {| state := state s; files := <[out := []]> (files s);
               trace := trace s ++ [ETruncate out] |})) : M str).

Definition NO_NEW_COMMITS : str := lit "No new commits to process.".

Definition read_text_safe (p : str) : M str :=
  gets (λ s, default [] (files s !! p)).

Definition detect_content_status : M ContentStatus :=
  code_text ← read_text_safe CODE_FILE;
  pseudo_text ← read_text_safe PSEUDO_FILE;
  let code_core_len :=
    match code_text with
    | [] => 0%Z
    | _ => len (strip_comments_and_ws_py code_text)
    end in
  let pseudo_core_len :=
    match pseudo_text with
    | [] => 0%Z
    | _ => len (strip_md pseudo_text)
    end in
  let tests_exist :=
    match tests_dir env with
    | Some (_ :: _) => true
    | Some [] | None => false
    end in
  let has_meaningful_code := (80 <=? code_core_len)%Z in
  let has_meaningful_pseudo := (120 <=? pseudo_core_len)%Z in
  mret {| code_len := code_core_len; pseudo_len := pseudo_core_len;
          has_code := has_meaningful_code;
          has_pseudo := has_meaningful_pseudo;
          tests_exist := tests_exist |}.

Definition call_gpt (system_prompt user_prompt : str) : M str :=
  emit (EGenerate system_prompt user_prompt);;
  content ← lift (chat env system_prompt user_prompt);
  mret (strip content).

(** [get_last_processed() or get_initial_commit()]: [None] and the empty
    string are falsy. *)
Definition resolve_last : M str :=
  stored ← get_last_processed;
  match stored with
  | Some (c :: r) => mret (c :: r)
  | Some [] | None => get_initial_commit
  end.

Definition main : M unit :=
  head ← get_head;
  last ← resolve_last;
  if decide (last = head) then print NO_NEW_COMMITS
  else
    d ← git_diff last head;
    status ← detect_content_status;
    let content_summary := describe_content_status status in
    let user_prompt :=
      format USER_PROMPT_TEMPLATE (prompt_args last head d content_summary) in
    feedback_md ← try_except (call_gpt SYSTEM_PROMPT user_prompt)
                             (λ e, mret (dedent (fallback_literal e)));
    out ← write_feedback feedback_md;
    set_last_processed head;;
    print (lit "Wrote " ++ out).

(** Running the file: the module level, then [main()]. *)
Definition script : M unit := module_init;; main.

End Script.

(** One invocation of the pipeline on a state directory and a working
    directory, with an empty trace to start with. *)
Definition start (d : state_dir) (fs : gmap str str) : Sys :=
  {| state := d; files := fs; trace := [] |}.

Definition invoke (env : Env) (d : state_dir) (fs : gmap str str)
    : result unit * Sys :=
  script env (start d fs).

(** *** What a trace shows *)

Definition artifact_writes (t : list event) : list (str * str) :=
  omap (λ e, match e with EWriteFile p x => Some (p, x) | _ => None end) t.

Definition checkpoint_writes (t : list event) : list str :=
  omap (λ e, match e with EWriteState sha => Some sha | _ => None end) t.

Definition generations (t : list event) : list (str * str) :=
  omap (λ e, match e with EGenerate sy u => Some (sy, u) | _ => None end) t.

Definition commands (t : list event) : list str :=
  omap (λ e, match e with ERun c => Some c | _ => None end) t.

Definition printed (t : list event) : list str :=
  omap (λ e, match e with EPrint l => Some l | _ => None end) t.

(** The checkpoint as [get_last_processed] reads it, without the monad. *)
Definition stored_revision (d : state_dir) : option str :=
  match d with
  | Dir (Document (JObject o)) =>
      match o !! LAST_PROCESSED with
      | Some (JStr v) => Some v
      | Some JNull | None => None
      end
  | _ => None
  end.

(* ===================================================================== *)
(** ** Views of the script used in the statements *)
(* ===================================================================== *)

(** The result and the store of an invocation. *)
Definition result_of (env : Env) (d : state_dir) (fs : gmap str str)
    : result unit := (invoke env d fs).1.
Definition after (env : Env) (d : state_dir) (fs : gmap str str) : Sys :=
  (invoke env d fs).2.

(** The result of [sh cmd], the effect left aside. *)
Definition run (env : Env) (cmd : str) : result str :=
  match subprocess env cmd with
  | Ok out => Ok (strip out)
  | Raise e => Raise e
  end.

(** The result of [get_initial_commit], the effect left aside. *)
Definition root_of (env : Env) : result str :=
  match run env CMD_ROOT with
  | Ok out =>
      match splitlines out with
      | first :: _ => Ok first
      | [] => Raise (Exn IndexError (lit "list index out of range"))
      end
  | Raise e => Raise e
  end.

(** What an optional field of the change set becomes. *)
Definition or_empty (r : result str) : str :=
  match r with
  | Ok t => t
  | Raise _ => []
  end.

(** The store after the module level has run. *)
Definition booted (s : Sys) : Sys :=
  match state s with
  | NoDir => {| state := Dir NoFile; files := files s;
                trace := trace s ++ [EMkdir] |}
  | Dir _ => s
  end.

(** [detect_content_status] as a function of the environment and the
    files. *)
Definition content_status_of (env : Env) (fs : gmap str str) : ContentStatus :=
  let code_text := default [] (fs !! CODE_FILE) in
  let pseudo_text := default [] (fs !! PSEUDO_FILE) in
  let code_core_len :=
    match code_text with
    | [] => 0%Z
    | _ => len (strip_comments_and_ws_py code_text)
    end in
  let pseudo_core_len :=
    match pseudo_text with
    | [] => 0%Z
    | _ => len (strip_md pseudo_text)
    end in
  {| code_len := code_core_len; pseudo_len := pseudo_core_len;
     has_code := (80 <=? code_core_len)%Z;
     has_pseudo := (120 <=? pseudo_core_len)%Z;
     tests_exist := match tests_dir env with
                    | Some (_ :: _) => true
                    | Some [] | None => false
                    end |}.

(** The request [main] composes, the text it persists and the name of the
    artifact. *)
Definition request_of (env : Env) (fs : gmap str str) (last head : str)
    (d : ChangeSet) : str :=
  format USER_PROMPT_TEMPLATE
    (prompt_args last head d
       (describe_content_status (content_status_of env fs))).

Definition feedback_of (env : Env) (user_prompt : str) : str :=
  match chat env SYSTEM_PROMPT user_prompt with
  | Ok content => strip content
  | Raise e => dedent (fallback_literal e)
  end.

Definition artifact_name (env : Env) : str :=
  lit "Meta-Feedback_" ++ strftime_stamp (utcnow env) ++ lit ".md".

Definition checkpoint_record (sha : str) : state_dir :=
  Dir (Document (JObject {[ LAST_PROCESSED := JStr sha ]})).

(** The store when [main] starts in an invocation. *)
Definition boot (d : state_dir) (fs : gmap str str) : Sys :=
  booted (start d fs).

(** The change set [git_diff] returns when the three diff commands answer
    [ns], [ss] and [p]. *)
Definition collected (env : Env) (ns ss p : str) : ChangeSet :=
  {| name_status := ns; shortstat := ss; patch := p;
     tree := or_empty (run env CMD_TREE);
     logs := or_empty (run env CMD_LOG) |}.

(** The store a complete run leaves: after the change set was collected in
    store [s], the request [u] is sent, the artifact written, the
    checkpoint set to [head] and the status line printed. *)
Definition persisted (env : Env) (head u : str) (s : Sys) : Sys :=
  {| state := checkpoint_record head;
     files := <[artifact_name env := feedback_of env u]> (files s);
     trace := trace s ++
       [EGenerate SYSTEM_PROMPT u;
        EWriteFile (artifact_name env) (feedback_of env u);
        EWriteState head;
        EPrint (lit "Wrote " ++ artifact_name env)] |}.

(** The store a run leaves when the text to persist cannot be encoded:
    the request [u] was sent and the artifact is left empty. *)
Definition unwritten (env : Env) (u : str) (s : Sys) : Sys :=
  {| state := state s;
     files := <[artifact_name env := []]> (files s);
     trace := trace s ++
       [EGenerate SYSTEM_PROMPT u; ETruncate (artifact_name env)] |}.

(** From [s] to [s'] only shell commands were run. *)
Definition only_ran (s s' : Sys) : Prop :=
  state s' = state s ∧ files s' = files s ∧
  ∃ cmds, trace s' = trace s ++ (ERun <$> cmds).

(** Nothing was written, generated or printed so far. *)
Definition quiet (s : Sys) : Prop :=
  artifact_writes (trace s) = [] ∧ checkpoint_writes (trace s) = [] ∧
  generations (trace s) = [] ∧ printed (trace s) = [].

(** Every invocation ends in one of four ways: an exception after shell
    commands only; the no-op; a complete run; an exception of the write of
    the artifact. *)
Inductive outcome (env : Env) (d : state_dir) (fs : gmap str str)
    : result unit * Sys → Prop :=
  | Aborted e s' :
      only_ran (boot d fs) s' →
      outcome env d fs (Raise e, s')
  | Skipped head s' :
      run env CMD_HEAD = Ok head →
      resolve_last env (log (ERun CMD_HEAD) (boot d fs)) = (Ok head, s') →
      outcome env d fs (Ok (), log (EPrint NO_NEW_COMMITS) s')
  | Completed head last s2 cs s3 :
      run env CMD_HEAD = Ok head →
      resolve_last env (log (ERun CMD_HEAD) (boot d fs)) = (Ok last, s2) →
      last ≠ head →
      git_diff env last head s2 = (Ok cs, s3) →
      encodable (feedback_of env (request_of env fs last head cs)) = true →
      outcome env d fs
        (Ok (), persisted env head (request_of env fs last head cs) s3)
  | Unwritable head last s2 cs s3 :
      run env CMD_HEAD = Ok head →
      resolve_last env (log (ERun CMD_HEAD) (boot d fs)) = (Ok last, s2) →
      last ≠ head →
      git_diff env last head s2 = (Ok cs, s3) →
      encodable (feedback_of env (request_of env fs last head cs)) = false →
      outcome env d fs
        (Raise (Exn UnicodeEncodeError
                  (encode_error_text
                     (feedback_of env (request_of env fs last head cs)))),
         unwritten env (request_of env fs last head cs) s3).

(** The invocation only printed the no-op line: no artifact, no checkpoint
    write, no request; the files are as before and the state directory is
    as the module level left it. *)
Definition is_noop (env : Env) (d : state_dir) (fs : gmap str str) : Prop :=
  result_of env d fs = Ok () ∧
  printed (trace (after env d fs)) = [NO_NEW_COMMITS] ∧
  artifact_writes (trace (after env d fs)) = [] ∧
  checkpoint_writes (trace (after env d fs)) = [] ∧
  generations (trace (after env d fs)) = [] ∧
  files (after env d fs) = fs ∧
  state (after env d fs) = state (boot d fs) ∧
  stored_revision (state (after env d fs)) = stored_revision d.

(** The invocation stopped on the exception [e] after it had run the
    commands [cmds], the last of which failed: from the module level on the
    script had only run shell commands, so that it wrote no artifact and no
    checkpoint, sent no request and printed nothing. *)
Definition aborted_at (env : Env) (d : state_dir) (fs : gmap str str)
    (e : exn) (cmds : list str) : Prop :=
  result_of env d fs = Raise e ∧
  (∃ pre, trace (after env d fs)
            = trace (boot d fs) ++ (ERun <$> (pre ++ cmds))) ∧
  artifact_writes (trace (after env d fs)) = [] ∧
  checkpoint_writes (trace (after env d fs)) = [] ∧
  generations (trace (after env d fs)) = [] ∧
  printed (trace (after env d fs)) = [].

(** The state file holds no checkpoint that [get_last_processed] could
    return: it is missing, cannot be parsed, holds a document that is not
    an object, or an object without the field or with a null field. *)
Definition no_checkpoint (s : Sys) : Prop :=
  state_file_of s = NoFile ∨
  state_file_of s = Unparseable ∨
  state_file_of s = Document JOther ∨
  ∃ o, state_file_of s = Document (JObject o) ∧
       (o !! LAST_PROCESSED = None ∨ o !! LAST_PROCESSED = Some JNull).

(** The template before and after its [{patch}] field. *)
Definition before_patch : list piece := take 11 USER_PROMPT_TEMPLATE.
Definition after_patch : list piece := drop 12 USER_PROMPT_TEMPLATE.

(** The fallback document as the specification words it: the heading, the
    error message verbatim, the retry instruction. *)
Definition fallback_document (e : exn) : str :=
  lit "# Meta-Feedback (Process-Oriented)" ++ [nl]
  ++ lit "The feedback service encountered an error: " ++ exn_text e ++ [nl]
  ++ lit "Please retry the instructor-triggered workflow." ++ [nl].

(* ===================================================================== *)
(** ** Sample worlds *)
(* ===================================================================== *)

Definition sha_root : str := lit "4b825dc642cb6eb9a060e54bf8d69288fbee4904".
Definition sha_head : str := lit "9fceb02d0ae598e95dc970b74767f19372d61af8".

(** A repository whose first commit is [root] and whose current commit is
    [head]; the diff commands answer when [diffs] is set, the listing and
    the log never do; the chat service gives [reply]. *)
Definition demo_env (root head : str) (diffs : bool) (reply : result str) : Env :=
  {| subprocess := λ cmd,
       if decide (cmd = CMD_HEAD) then Ok (head ++ [nl])
       else if decide (cmd = CMD_ROOT) then Ok (root ++ [nl])
       else if diffs && startswith (lit "git diff --name-status ") cmd
       then Ok (lit "M	algorithm.py" ++ [nl])
       else if diffs && startswith (lit "git diff --shortstat ") cmd
       then Ok (lit " 1 file changed, 1 insertion(+), 1 deletion(-)" ++ [nl])
       else if diffs && startswith (lit "git diff --unified=0 ") cmd
       then Ok (lit "@@ -1 +1 @@" ++ [nl] ++ lit "-x = 1" ++ [nl]
                ++ lit "+x = 2" ++ [nl])
       else Raise (Exn CalledProcessError
                     (lit "Command returned non-zero exit status 128."));
     tests_dir := None;
     utcnow := {| dt_year := 2025; dt_month := 1; dt_day := 1; dt_hour := 9;
                  dt_minute := 30; dt_second := 12; dt_microsecond := 0 |};
     chat := λ _ _, reply |}.

Definition service_down : result str :=
  Raise (Exn ServiceError (lit "Connection error.")).

(** An error whose message spans several lines, one of them blank but for
    two spaces, as the body of an HTML error page relayed by the client. *)
Definition gateway_error : exn :=
  Exn ServiceError
    (lit "Error code: 502" ++ [nl] ++ lit "  " ++ [nl] ++ lit "Bad Gateway").

(** A patch of 20500 characters, and the same repository when this is the
    patch between its two commits and the chat service answers. *)
Definition long_diff : str := replicate (Z.to_nat 20500) 43.

Definition long_diff_env : Env :=
  {| subprocess := λ cmd,
       if decide (cmd = CMD_PATCH sha_root sha_head)
       then Ok (long_diff ++ [nl])
       else subprocess (demo_env sha_root sha_head true service_down) cmd;
     tests_dir := None;
     utcnow := utcnow (demo_env sha_root sha_head true service_down);
     chat := λ _ _, Ok (lit "Well done.") |}.

(** The same world some seconds later within the minute. *)
Definition seconds_later (env : Env) : Env :=
  {| subprocess := subprocess env;
     tests_dir := tests_dir env;
     utcnow := {| dt_year := dt_year (utcnow env);
                  dt_month := dt_month (utcnow env);
                  dt_day := dt_day (utcnow env);
                  dt_hour := dt_hour (utcnow env);
                  dt_minute := dt_minute (utcnow env);
                  dt_second := 47; dt_microsecond := 250000 |};
     chat := chat env |}.

(** A reply that ends in the first half of a surrogate pair. *)
Definition half_pair_reply : str := lit "Well done " ++ [55357].

(** Working directories with a code document of stripped length [n] and a
    pseudocode document of stripped length [m + 4]. *)
Definition sample_code (n : nat) : str :=
  lit "# header comment" ++ [nl] ++ replicate n 120 ++ [32; 9; nl]
  ++ triple squote ++ lit "a docstring" ++ triple squote.

Definition sample_pseudo (m : nat) : str :=
  lit "# Plan" ++ [nl] ++ lit "- " ++ replicate m 97 ++ lit " <!-- note -->".

Definition sample_files (n m : nat) : gmap str str :=
  <[CODE_FILE := sample_code n]> (<[PSEUDO_FILE := sample_pseudo m]> ∅).

(* ===================================================================== *)
(** ** What each operation does, as equations *)
(* ===================================================================== *)

Section Equations.

Variable env : Env.

Lemma bind_ok {A B} (m : M A) (f : A → M B) s a s' :
  m s = (Ok a, s') → (m ≫= f) s = f a s'.
Proof. unfold mbind, M_bind. by intros ->. Qed.

Lemma bind_raise {A B} (m : M A) (f : A → M B) s e s' :
  m s = (Raise e, s') → (m ≫= f) s = (Raise e, s').
Proof. unfold mbind, M_bind. by intros ->. Qed.

Lemma module_init_eq s : module_init s = (Ok (), booted s).
Proof. unfold module_init, booted. by destruct (state s). Qed.

Lemma sh_eq cmd s : sh env cmd s = (run env cmd, log (ERun cmd) s).
Proof.
  unfold sh, run, mbind, M_bind, emit, lift, mret, M_ret.
  by destruct (subprocess env cmd).
Qed.

Lemma get_head_eq s : get_head env s = (run env CMD_HEAD, log (ERun CMD_HEAD) s).
Proof. apply sh_eq. Qed.

Lemma get_initial_commit_eq s :
  get_initial_commit env s = (root_of env, log (ERun CMD_ROOT) s).
Proof.
  unfold get_initial_commit, root_of, mbind, M_bind. rewrite sh_eq.
  destruct (run env CMD_ROOT) as [out|e]; [|done].
  by destruct (splitlines out).
Qed.

Lemma get_last_processed_eq s :
  get_last_processed s = (Ok (stored_revision (state s)), s).
Proof.
  unfold get_last_processed, stored_revision, gets, try_except, load_state,
    state_file_of, json_get, mbind, M_bind, mret, M_ret, raise.
  by destruct s as [[|[| |[d|]]] fs tr].
Qed.

Lemma resolve_last_eq s :
  resolve_last env s =
    match stored_revision (state s) with
    | Some (c :: r) => (Ok (c :: r), s)
    | Some [] | None => (root_of env, log (ERun CMD_ROOT) s)
    end.
Proof.
  unfold resolve_last. erewrite bind_ok by apply get_last_processed_eq.
  destruct (stored_revision (state s)) as [[|c r]|];
    try apply get_initial_commit_eq; done.
Qed.

Lemma detect_content_status_eq s :
  detect_content_status env s = (Ok (content_status_of env (files s)), s).
Proof. reflexivity. Qed.

Lemma call_gpt_eq sy u s :
  call_gpt env sy u s =
    (match chat env sy u with Ok c => Ok (strip c) | Raise e => Raise e end,
     log (EGenerate sy u) s).
Proof.
  unfold call_gpt, mbind, M_bind, emit, lift, mret, M_ret.
  by destruct (chat env sy u).
Qed.

Lemma generate_eq u s :
  try_except (call_gpt env SYSTEM_PROMPT u)
             (λ e, mret (dedent (fallback_literal e))) s =
    (Ok (feedback_of env u), log (EGenerate SYSTEM_PROMPT u) s).
Proof.
  unfold try_except, feedback_of. rewrite call_gpt_eq.
  by destruct (chat env SYSTEM_PROMPT u).
Qed.

Lemma write_feedback_eq md s :
  write_feedback env md s =
    if encodable md
    then (Ok (artifact_name env),
          {| state := state s; files := <[artifact_name env := md]> (files s);
             trace := trace s ++ [EWriteFile (artifact_name env) md] |})
    else (Raise (Exn UnicodeEncodeError (encode_error_text md)),
          {| state := state s; files := <[artifact_name env := []]> (files s);
             trace := trace s ++ [ETruncate (artifact_name env)] |}).
Proof. reflexivity. Qed.


End Equations.

Section Orchestrator.

Variable env : Env.

Lemma optional_eq cmd s :
  try_except (sh env cmd) (λ _, mret []) s =
    (Ok (or_empty (run env cmd)), log (ERun cmd) s).
Proof.
  unfold try_except. rewrite sh_eq. by destruct (run env cmd).
Qed.

Lemma git_diff_same head s :
  git_diff env head head s =
    (Ok {| name_status := []; shortstat := []; patch := [];
           tree := or_empty (run env CMD_TREE);
           logs := or_empty (run env CMD_LOG) |},
     log (ERun CMD_LOG) (log (ERun CMD_TREE) s)).
Proof.
  unfold git_diff. rewrite !decide_True by done.
  do 3 (erewrite bind_ok by reflexivity).
  erewrite bind_ok by apply optional_eq.
  erewrite bind_ok by apply optional_eq. done.
Qed.

Lemma git_diff_ne base head s :
  base ≠ head →
  git_diff env base head s =
    let s1 := log (ERun (CMD_NAME_STATUS base head)) s in
    let s2 := log (ERun (CMD_SHORTSTAT base head)) s1 in
    let s3 := log (ERun (CMD_PATCH base head)) s2 in
    match run env (CMD_NAME_STATUS base head) with
    | Raise e => (Raise e, s1)
    | Ok ns =>
        match run env (CMD_SHORTSTAT base head) with
        | Raise e => (Raise e, s2)
        | Ok ss =>
            match run env (CMD_PATCH base head) with
            | Raise e => (Raise e, s3)
            | Ok p =>
                (Ok {| name_status := ns; shortstat := ss; patch := p;
                       tree := or_empty (run env CMD_TREE);
                       logs := or_empty (run env CMD_LOG) |},
                 log (ERun CMD_LOG) (log (ERun CMD_TREE) s3))
            end
        end
    end.
Proof.
  intros Hne. unfold git_diff. rewrite !decide_False by done. cbn zeta.
  destruct (run env (CMD_NAME_STATUS base head)) as [ns|e] eqn:Hns;
    [erewrite bind_ok by (rewrite sh_eq, Hns; done)
    |by erewrite bind_raise by (rewrite sh_eq, Hns; done)].
  destruct (run env (CMD_SHORTSTAT base head)) as [ss|e] eqn:Hss;
    [erewrite bind_ok by (rewrite sh_eq, Hss; done)
    |by erewrite bind_raise by (rewrite sh_eq, Hss; done)].
  destruct (run env (CMD_PATCH base head)) as [p|e] eqn:Hp;
    [erewrite bind_ok by (rewrite sh_eq, Hp; done)
    |by erewrite bind_raise by (rewrite sh_eq, Hp; done)].
  erewrite bind_ok by apply optional_eq.
  erewrite bind_ok by apply optional_eq. done.
Qed.

Lemma main_eq s :
  main env s =
    let s1 := log (ERun CMD_HEAD) s in
    match run env CMD_HEAD with
    | Raise e => (Raise e, s1)
    | Ok head =>
        match resolve_last env s1 with
        | (Raise e, s2) => (Raise e, s2)
        | (Ok last, s2) =>
            if decide (last = head) then (Ok (), log (EPrint NO_NEW_COMMITS) s2)
            else
              match git_diff env last head s2 with
              | (Raise e, s3) => (Raise e, s3)
              | (Ok d, s3) =>
                  if negb (encodable
                             (feedback_of env
                                (request_of env (files s3) last head d)))
                  then
                    (Raise (Exn UnicodeEncodeError
                              (encode_error_text
                                 (feedback_of env
                                    (request_of env (files s3) last head d)))),
                     unwritten env (request_of env (files s3) last head d) s3)
                  else
                  match state s3 with
                  | Dir _ =>
                      (Ok (), persisted env head
                                (request_of env (files s3) last head d) s3)
                  | NoDir =>
                      (Raise (Exn FileNotFoundError NO_STATE_FILE),
                       {| state := NoDir;
                          files := <[artifact_name env :=
                                      feedback_of env
                                        (request_of env (files s3) last head d)]>
                                     (files s3);
                          trace := trace s3 ++
                            [EGenerate SYSTEM_PROMPT
                               (request_of env (files s3) last head d);
                             EWriteFile (artifact_name env)
                               (feedback_of env
                                  (request_of env (files s3) last head d))] |})
                  end
              end
        end
    end.
Proof.
  cbn zeta. unfold main.
  destruct (run env CMD_HEAD) as [head|e] eqn:Hh;
    [erewrite bind_ok by (rewrite get_head_eq, Hh; done)
    |by erewrite bind_raise by (rewrite get_head_eq, Hh; done)].
  destruct (resolve_last env _) as [[last|e] s2] eqn:Hl;
    [erewrite bind_ok by apply Hl|by erewrite bind_raise by apply Hl].
  destruct (decide (last = head)) as [->|Hne]; [done|].
  destruct (git_diff env last head s2) as [[d|e] s3] eqn:Hd;
    [erewrite bind_ok by apply Hd|by erewrite bind_raise by apply Hd].
  erewrite bind_ok by apply detect_content_status_eq. cbn zeta.
  fold (request_of env (files s3) last head d).
  erewrite bind_ok by apply generate_eq.
  destruct (encodable (feedback_of env (request_of env (files s3) last head d)))
    eqn:Henc; cbn [negb].
  - erewrite bind_ok by (rewrite write_feedback_eq, Henc; done).
    unfold mbind, M_bind, set_last_processed, print, emit, log, persisted.
    cbn [state files trace].
    destruct (state s3); cbn [state files trace];
      by rewrite <- !app_assoc.
  - erewrite bind_raise by (rewrite write_feedback_eq, Henc; done).
    unfold unwritten, log. cbn [state files trace]. by rewrite <- !app_assoc.
Qed.

Lemma script_eq s : script env s = main env (booted s).
Proof. unfold script. by erewrite bind_ok by apply module_init_eq. Qed.

End Orchestrator.

(* ===================================================================== *)
(** ** Frames: what the read-only steps leave alone *)
(* ===================================================================== *)

Lemma only_ran_refl s : only_ran s s.
Proof. repeat split. exists []. by rewrite app_nil_r. Qed.

Lemma only_ran_log c s s' : only_ran s s' → only_ran s (log (ERun c) s').
Proof.
  intros (Hst & Hf & cmds & Ht). repeat split; [done..|].
  exists (cmds ++ [c]). cbn [log trace]. by rewrite Ht, fmap_app, app_assoc.
Qed.

Lemma only_ran_trans s1 s2 s3 : only_ran s1 s2 → only_ran s2 s3 → only_ran s1 s3.
Proof.
  intros (Hst & Hf & c1 & Ht) (Hst' & Hf' & c2 & Ht'). repeat split.
  - by rewrite Hst'.
  - by rewrite Hf'.
  - exists (c1 ++ c2). by rewrite Ht', Ht, fmap_app, app_assoc.
Qed.

Lemma artifact_writes_runs t cmds :
  artifact_writes (t ++ (ERun <$> cmds)) = artifact_writes t.
Proof.
  unfold artifact_writes. rewrite omap_app.
  replace (omap _ (ERun <$> cmds)) with (@nil (str * str));
    [by rewrite app_nil_r|].
  by induction cmds.
Qed.

Lemma checkpoint_writes_runs t cmds :
  checkpoint_writes (t ++ (ERun <$> cmds)) = checkpoint_writes t.
Proof.
  unfold checkpoint_writes. rewrite omap_app.
  replace (omap _ (ERun <$> cmds)) with (@nil str); [by rewrite app_nil_r|].
  by induction cmds.
Qed.

Lemma generations_runs t cmds :
  generations (t ++ (ERun <$> cmds)) = generations t.
Proof.
  unfold generations. rewrite omap_app.
  replace (omap _ (ERun <$> cmds)) with (@nil (str * str));
    [by rewrite app_nil_r|].
  by induction cmds.
Qed.

Lemma printed_runs t cmds : printed (t ++ (ERun <$> cmds)) = printed t.
Proof.
  unfold printed. rewrite omap_app.
  replace (omap _ (ERun <$> cmds)) with (@nil str); [by rewrite app_nil_r|].
  by induction cmds.
Qed.

Lemma boot_state d fs :
  state (boot d fs) = Dir (match d with NoDir => NoFile | Dir f => f end).
Proof. by destruct d. Qed.

Lemma boot_files d fs : files (boot d fs) = fs.
Proof. by destruct d. Qed.

Lemma boot_stored d fs : stored_revision (state (boot d fs)) = stored_revision d.
Proof. by destruct d. Qed.

Lemma boot_trace d fs :
  trace (boot d fs) = match d with NoDir => [EMkdir] | Dir _ => [] end.
Proof. by destruct d. Qed.

Lemma boot_quiet d fs :
  artifact_writes (trace (boot d fs)) = [] ∧
  checkpoint_writes (trace (boot d fs)) = [] ∧
  generations (trace (boot d fs)) = [] ∧
  printed (trace (boot d fs)) = [].
Proof. by destruct d. Qed.

Section Frames.

Variable env : Env.

Lemma resolve_last_frame s r s' :
  resolve_last env s = (r, s') → only_ran s s'.
Proof.
  rewrite resolve_last_eq.
  destruct (stored_revision (state s)) as [[|c l]|]; intros [= <- <-];
    auto using only_ran_refl, only_ran_log.
Qed.

Lemma git_diff_frame base head s r s' :
  git_diff env base head s = (r, s') → only_ran s s'.
Proof.
  destruct (decide (base = head)) as [->|Hne].
  - rewrite git_diff_same. intros [= <- <-].
    auto using only_ran_refl, only_ran_log.
  - rewrite git_diff_ne by done. cbn zeta.
    repeat case_match; intros [= <- <-];
      auto 10 using only_ran_refl, only_ran_log.
Qed.

Lemma invoke_outcome d fs : outcome env d fs (invoke env d fs).
Proof.
  unfold invoke. rewrite script_eq, main_eq. fold (boot d fs). cbn zeta.
  destruct (run env CMD_HEAD) as [head|e] eqn:Hh;
    [|constructor; auto using only_ran_refl, only_ran_log].
  destruct (resolve_last env _) as [[last|e] s2] eqn:Hl.
  2:{ constructor. apply resolve_last_frame in Hl.
      eapply only_ran_trans; [|done]. auto using only_ran_refl, only_ran_log. }
  pose proof (resolve_last_frame _ _ _ Hl) as Hf2.
  destruct (decide (last = head)) as [->|Hne]; [by econstructor|].
  destruct (git_diff env last head s2) as [[cs|e] s3] eqn:Hd.
  2:{ constructor. apply git_diff_frame in Hd.
      eapply only_ran_trans; [|done]. eapply only_ran_trans; [|done].
      auto using only_ran_refl, only_ran_log. }
  pose proof (git_diff_frame _ _ _ _ _ Hd) as (Hst & Hfs & _).
  destruct Hf2 as (Hst2 & Hfs2 & _). cbn [log state files] in *.
  rewrite Hst, Hst2, boot_state, Hfs, Hfs2, boot_files.
  destruct (encodable (feedback_of env (request_of env fs last head cs)))
    eqn:Henc; cbn [negb]; by econstructor.
Qed.

End Frames.

Lemma quiet_boot d fs : quiet (boot d fs).
Proof. apply boot_quiet. Qed.

Lemma quiet_only_ran s s' : only_ran s s' → quiet s → quiet s'.
Proof.
  intros (_ & _ & cmds & Ht) (H1 & H2 & H3 & H4). unfold quiet.
  by rewrite Ht, artifact_writes_runs, checkpoint_writes_runs, generations_runs,
    printed_runs.
Qed.

Lemma only_ran_boot_log c d fs : only_ran (boot d fs) (log (ERun c) (boot d fs)).
Proof. apply only_ran_log, only_ran_refl. Qed.

Lemma stored_checkpoint_record sha : stored_revision (checkpoint_record sha) = Some sha.
Proof.
  unfold stored_revision, checkpoint_record. by rewrite lookup_singleton_eq.
Qed.

Section Checkpoint.

Variable env : Env.

(** In a complete run the shell steps before the request change nothing
    and write nothing. *)
Lemma collected_frame d fs head last s2 cs s3 :
  resolve_last env (log (ERun CMD_HEAD) (boot d fs)) = (Ok last, s2) →
  git_diff env last head s2 = (Ok cs, s3) →
  only_ran (boot d fs) s3.
Proof.
  intros Hl Hd. apply resolve_last_frame in Hl. apply git_diff_frame in Hd.
  eauto using only_ran_trans, only_ran_boot_log.
Qed.

Lemma persisted_writes head u s :
  quiet s →
  artifact_writes (trace (persisted env head u s))
    = [(artifact_name env, feedback_of env u)] ∧
  checkpoint_writes (trace (persisted env head u s)) = [head] ∧
  generations (trace (persisted env head u s)) = [(SYSTEM_PROMPT, u)] ∧
  printed (trace (persisted env head u s)) = [lit "Wrote " ++ artifact_name env].
Proof.
  intros (H1 & H2 & H3 & H4). cbn [persisted trace].
  unfold artifact_writes, checkpoint_writes, generations, printed in *.
  rewrite !omap_app, H1, H2, H3, H4. done.
Qed.

Lemma unwritten_writes u s :
  quiet s →
  artifact_writes (trace (unwritten env u s)) = [] ∧
  checkpoint_writes (trace (unwritten env u s)) = [] ∧
  generations (trace (unwritten env u s)) = [(SYSTEM_PROMPT, u)] ∧
  printed (trace (unwritten env u s)) = [].
Proof.
  intros (H1 & H2 & H3 & H4). cbn [unwritten trace].
  unfold artifact_writes, checkpoint_writes, generations, printed in *.
  rewrite !omap_app, H1, H2, H3, H4. done.
Qed.


End Checkpoint.


(* ===================================================================== *)
(** ** The paths of an invocation *)
(* ===================================================================== *)

Section Paths.

Variable env : Env.

Lemma resolve_last_result e s :
  (resolve_last env (log e s)).1 = (resolve_last env s).1.
Proof.
  rewrite !resolve_last_eq. cbn [log state]. by repeat case_match.
Qed.

Lemma resolve_last_at_boot d fs last :
  (resolve_last env (boot d fs)).1 = Ok last →
  ∃ s2, resolve_last env (log (ERun CMD_HEAD) (boot d fs)) = (Ok last, s2) ∧
        only_ran (boot d fs) s2.
Proof.
  intros H. rewrite <- (resolve_last_result (ERun CMD_HEAD)) in H.
  destruct (resolve_last env (log _ _)) as [r s2] eqn:Hl. cbn in H. subst r.
  exists s2. split; [done|]. apply resolve_last_frame in Hl.
  eauto using only_ran_trans, only_ran_boot_log.
Qed.

Lemma invoke_head_failed d fs e :
  run env CMD_HEAD = Raise e →
  invoke env d fs = (Raise e, log (ERun CMD_HEAD) (boot d fs)).
Proof.
  intros Hh. unfold invoke. rewrite script_eq, main_eq. fold (boot d fs).
  cbn zeta. by rewrite Hh.
Qed.

Lemma invoke_skipped d fs head :
  run env CMD_HEAD = Ok head →
  (resolve_last env (boot d fs)).1 = Ok head →
  ∃ s', invoke env d fs = (Ok (), log (EPrint NO_NEW_COMMITS) s') ∧
        only_ran (boot d fs) s'.
Proof.
  intros Hh (s2 & Hl & Hr)%resolve_last_at_boot. exists s2. split; [|done].
  unfold invoke. rewrite script_eq, main_eq. fold (boot d fs). cbn zeta.
  by rewrite Hh, Hl, decide_True.
Qed.

Lemma invoke_diff_failed d fs head last e :
  run env CMD_HEAD = Ok head →
  (resolve_last env (boot d fs)).1 = Ok last →
  last ≠ head →
  (∀ s, (git_diff env last head s).1 = Raise e) →
  ∃ s', invoke env d fs = (Raise e, s') ∧ only_ran (boot d fs) s'.
Proof.
  intros Hh (s2 & Hl & Hr)%resolve_last_at_boot Hne Hd.
  specialize (Hd s2).
  destruct (git_diff env last head s2) as [r s3] eqn:Hg. cbn in Hd. subst r.
  exists s3. split.
  - unfold invoke. rewrite script_eq, main_eq. fold (boot d fs). cbn zeta.
    by rewrite Hh, Hl, decide_False, Hg.
  - apply git_diff_frame in Hg. eauto using only_ran_trans.
Qed.

Lemma invoke_completed d fs head last ns ss p :
  run env CMD_HEAD = Ok head →
  (resolve_last env (boot d fs)).1 = Ok last →
  last ≠ head →
  run env (CMD_NAME_STATUS last head) = Ok ns →
  run env (CMD_SHORTSTAT last head) = Ok ss →
  run env (CMD_PATCH last head) = Ok p →
  encodable
    (feedback_of env (request_of env fs last head (collected env ns ss p)))
    = true →
  ∃ s3, invoke env d fs =
          (Ok (), persisted env head
                    (request_of env fs last head (collected env ns ss p)) s3) ∧
        only_ran (boot d fs) s3.
Proof.
  intros Hh (s2 & Hl & Hr)%resolve_last_at_boot Hne Hns Hss Hp Henc.
  assert (∃ s3, git_diff env last head s2 = (Ok (collected env ns ss p), s3))
    as [s3 Hg].
  { rewrite git_diff_ne by done. cbn zeta. rewrite Hns, Hss, Hp. eauto. }
  exists s3. pose proof (git_diff_frame _ _ _ _ _ _ Hg) as Hr3. split.
  - unfold invoke. rewrite script_eq, main_eq. fold (boot d fs). cbn zeta.
    rewrite Hh, Hl, decide_False, Hg by done.
    destruct Hr3 as (-> & -> & _). destruct Hr as (-> & -> & _).
    by rewrite boot_state, boot_files, Henc.
  - eauto using only_ran_trans.
Qed.

(** The same run when the text to persist cannot be encoded: the request
    is sent all the same, the artifact left empty, and the exception of the
    write ends the run. *)
Lemma invoke_unwritable d fs head last ns ss p :
  run env CMD_HEAD = Ok head →
  (resolve_last env (boot d fs)).1 = Ok last →
  last ≠ head →
  run env (CMD_NAME_STATUS last head) = Ok ns →
  run env (CMD_SHORTSTAT last head) = Ok ss →
  run env (CMD_PATCH last head) = Ok p →
  encodable
    (feedback_of env (request_of env fs last head (collected env ns ss p)))
    = false →
  ∃ s3, invoke env d fs =
          (Raise (Exn UnicodeEncodeError
                    (encode_error_text
                       (feedback_of env
                          (request_of env fs last head (collected env ns ss p))))),
           unwritten env
             (request_of env fs last head (collected env ns ss p)) s3) ∧
        only_ran (boot d fs) s3.
Proof.
  intros Hh (s2 & Hl & Hr)%resolve_last_at_boot Hne Hns Hss Hp Henc.
  assert (∃ s3, git_diff env last head s2 = (Ok (collected env ns ss p), s3))
    as [s3 Hg].
  { rewrite git_diff_ne by done. cbn zeta. rewrite Hns, Hss, Hp. eauto. }
  exists s3. pose proof (git_diff_frame _ _ _ _ _ _ Hg) as Hr3. split.
  - unfold invoke. rewrite script_eq, main_eq. fold (boot d fs). cbn zeta.
    rewrite Hh, Hl, decide_False, Hg by done.
    destruct Hr3 as (-> & -> & _). destruct Hr as (-> & -> & _).
    by rewrite boot_state, boot_files, Henc.
  - eauto using only_ran_trans.
Qed.

(** Whether the write succeeds or not, the request of such a run is sent,
    once, and it is the only one. *)
Lemma invoke_requests d fs head last ns ss p :
  run env CMD_HEAD = Ok head →
  (resolve_last env (boot d fs)).1 = Ok last →
  last ≠ head →
  run env (CMD_NAME_STATUS last head) = Ok ns →
  run env (CMD_SHORTSTAT last head) = Ok ss →
  run env (CMD_PATCH last head) = Ok p →
  generations (trace (invoke env d fs).2)
    = [(SYSTEM_PROMPT, request_of env fs last head (collected env ns ss p))].
Proof.
  intros Hh Hl Hne Hns Hss Hp.
  destruct (encodable
              (feedback_of env
                 (request_of env fs last head (collected env ns ss p))))
    eqn:Henc.
  - destruct (invoke_completed d fs head last ns ss p) as (s3 & -> & Hr);
      try done.
    pose proof (quiet_only_ran _ _ Hr (quiet_boot d fs)) as Hq.
    by destruct (persisted_writes env head
                   (request_of env fs last head (collected env ns ss p)) s3 Hq)
      as (_ & _ & ? & _).
  - destruct (invoke_unwritable d fs head last ns ss p) as (s3 & -> & Hr);
      try done.
    pose proof (quiet_only_ran _ _ Hr (quiet_boot d fs)) as Hq.
    by destruct (unwritten_writes env
                   (request_of env fs last head (collected env ns ss p)) s3 Hq)
      as (_ & _ & ? & _).
Qed.

(** An invocation that ran shell commands only left everything as the
    module level left it. *)
Lemma only_ran_untouched d fs s' :
  only_ran (boot d fs) s' →
  quiet s' ∧ files s' = fs ∧ state s' = state (boot d fs) ∧
  stored_revision (state s') = stored_revision d.
Proof.
  intros Hr. split; [eauto using quiet_only_ran, quiet_boot|].
  destruct Hr as (Hst & Hfs & _).
  by rewrite Hst, Hfs, boot_files, boot_stored.
Qed.

End Paths.

(* ===================================================================== *)
(** ** The no-op short circuit *)
(* ===================================================================== *)

Lemma skipped_is_noop env d fs head :
  run env CMD_HEAD = Ok head →
  (resolve_last env (boot d fs)).1 = Ok head →
  is_noop env d fs.
Proof.
  intros Hh Hl. destruct (invoke_skipped env d fs head Hh Hl) as (s' & Hi & Hr).
  destruct (only_ran_untouched d fs s' Hr) as ((H1 & H2 & H3 & H4) & Hf & Hs & Hv).
  unfold is_noop, result_of, after. rewrite Hi. cbn [fst snd log trace state files].
  unfold printed, artifact_writes, checkpoint_writes, generations in *.
  by rewrite !omap_app, H1, H2, H3, H4.
Qed.

Lemma resolve_stored env d fs head :
  head ≠ [] → stored_revision d = Some head →
  (resolve_last env (boot d fs)).1 = Ok head.
Proof.
  intros Hne Hs. rewrite resolve_last_eq, boot_stored, Hs.
  by destruct head.
Qed.

Lemma resolve_root env d fs :
  stored_revision d = None →
  (resolve_last env (boot d fs)).1 = (get_initial_commit env (boot d fs)).1.
Proof.
  intros Hs. by rewrite resolve_last_eq, boot_stored, Hs, get_initial_commit_eq.
Qed.

Lemma root_of_same env env2 :
  run env2 CMD_ROOT = run env CMD_ROOT → root_of env2 = root_of env.
Proof. unfold root_of. by intros ->. Qed.

(** C2, amended.  When the stored checkpoint, or the root revision when no
    checkpoint is stored, is the resolved (non-empty) head, the invocation
    only prints the no-op line: it writes no artifact and no checkpoint,
    sends no request and leaves the files and the stored checkpoint as they
    were; what it can change is the state directory, which the module
    level creates when it is missing.  A second invocation after one that
    ended normally, with the same head and root, is such a no-op and
    leaves the state directory exactly as it found it. *)
Theorem noop_short_circuit env d fs head :
  run env CMD_HEAD = Ok head →
  head ≠ [] →
  (stored_revision d = Some head ∨
   (stored_revision d = None ∧
    (get_initial_commit env (boot d fs)).1 = Ok head) →
   is_noop env d fs ∧
   state (after env d fs) = match d with NoDir => Dir NoFile | Dir _ => d end)
  ∧
  (result_of env d fs = Ok () →
   ∀ env2,
     run env2 CMD_HEAD = Ok head →
     run env2 CMD_ROOT = run env CMD_ROOT →
     is_noop env2 (state (after env d fs)) (files (after env d fs)) ∧
     state (after env2 (state (after env d fs)) (files (after env d fs)))
       = state (after env d fs)).
Proof.
  intros Hh Hne. split.
  - intros Hbase.
    assert ((resolve_last env (boot d fs)).1 = Ok head) as Hl.
    { destruct Hbase as [Hs|[Hs Hr]]; [by apply resolve_stored|].
      by rewrite resolve_root. }
    pose proof (skipped_is_noop env d fs head Hh Hl) as Hn.
    split; [done|]. destruct Hn as (_ & _ & _ & _ & _ & _ & -> & _).
    by destruct d.
  - unfold result_of, after. intros Hok env2 Hh2 Hroot.
    destruct (invoke_outcome env d fs)
      as [e s' Hr|head' s' Hh' Hl|head' last s2 cs s3 Hh' Hl Hn' Hd Henc
         |head' last s2 cs s3 Hh' Hl Hn' Hd Henc];
      [done| | |done]; cbn [snd log persisted state files];
      rewrite Hh in Hh'; injection Hh' as <-.
    + pose proof (resolve_last_frame _ _ _ _ Hl) as (Hst & Hfs & _).
      cbn [log state files] in Hst, Hfs.
      assert (∃ f, state s' = Dir f) as [f Hf] by (rewrite Hst, boot_state; eauto).
      pose proof (f_equal fst Hl) as Hl1. rewrite resolve_last_result in Hl1.
      cbn [fst] in Hl1. rewrite resolve_last_eq in Hl1.
      assert ((resolve_last env2 (boot (state s') (files s'))).1 = Ok head) as Hl2.
      { rewrite resolve_last_eq, boot_stored, Hst. rewrite (root_of_same env env2) by done.
        revert Hl1. by repeat case_match. }
      pose proof (skipped_is_noop env2 _ _ head Hh2 Hl2) as Hn.
      split; [done|]. destruct Hn as (_ & _ & _ & _ & _ & _ & Hs & _).
      unfold after in Hs. by rewrite Hs, Hf.
    + assert ((resolve_last env2
                 (boot (checkpoint_record head)
                    (<[artifact_name env :=
                        feedback_of env (request_of env fs last head cs)]>
                       (files s3)))).1 = Ok head) as Hl2.
      { apply resolve_stored; [done|]. apply stored_checkpoint_record. }
      pose proof (skipped_is_noop env2 _ _ head Hh2 Hl2) as Hn.
      split; [done|]. by destruct Hn as (_ & _ & _ & _ & _ & _ & Hs & _).
Qed.

Lemma noop_short_circuit_witness :
  (is_noop (demo_env sha_head sha_head false service_down) NoDir ∅ ∧
   state (after (demo_env sha_head sha_head false service_down) NoDir ∅)
     = Dir NoFile)
  ∧
  (is_noop (demo_env sha_root sha_head false service_down)
     (state (after (demo_env sha_root sha_head true service_down) NoDir ∅))
     (files (after (demo_env sha_root sha_head true service_down) NoDir ∅)) ∧
   state (after (demo_env sha_root sha_head false service_down)
            (state (after (demo_env sha_root sha_head true service_down) NoDir ∅))
            (files (after (demo_env sha_root sha_head true service_down) NoDir ∅)))
     = state (after (demo_env sha_root sha_head true service_down) NoDir ∅)).
Proof.
  split.
  - refine (proj1 (noop_short_circuit
                     (demo_env sha_head sha_head false service_down)
                     NoDir ∅ sha_head _ _) _).
    + vm_compute; reflexivity.
    + vm_compute; discriminate.
    + right. split; vm_compute; reflexivity.
  - refine (proj2 (noop_short_circuit
                     (demo_env sha_root sha_head true service_down)
                     NoDir ∅ sha_head _ _) _
                  (demo_env sha_root sha_head false service_down) _ _).
    + vm_compute; reflexivity.
    + vm_compute; discriminate.
    + vm_compute; reflexivity.
    + vm_compute; reflexivity.
    + vm_compute; reflexivity.
Defined.

(** C2 as stated fails: in a fresh single-commit checkout (no state
    directory, no checkpoint, root = head) the invocation is the no-op and
    yet it changes the file system, since the module level has created
    [.meta-feedback]. *)
Lemma noop_creates_state_directory :
  stored_revision NoDir = None ∧
  (get_head (demo_env sha_head sha_head false service_down) (boot NoDir ∅)).1
    = Ok sha_head ∧
  (get_initial_commit (demo_env sha_head sha_head false service_down)
     (boot NoDir ∅)).1 = Ok sha_head ∧
  result_of (demo_env sha_head sha_head false service_down) NoDir ∅ = Ok () ∧
  trace (after (demo_env sha_head sha_head false service_down) NoDir ∅)
    = [EMkdir; ERun CMD_HEAD; ERun CMD_ROOT; EPrint NO_NEW_COMMITS] ∧
  state (after (demo_env sha_head sha_head false service_down) NoDir ∅)
    = Dir NoFile ∧
  state (after (demo_env sha_head sha_head false service_down) NoDir ∅)
    ≠ NoDir.
Proof.
  repeat split; try (vm_compute; reflexivity). vm_compute. discriminate.
Qed.

(* ===================================================================== *)
(** ** The change-set collector inside the orchestrator *)
(* ===================================================================== *)

Lemma commands_log_run c s : commands (trace (log (ERun c) s)) = commands (trace s) ++ [c].
Proof. cbn [log trace]. unfold commands. by rewrite omap_app. Qed.

(** C5, amended.  With base equal to head, [git_diff] returns empty
    [name_status], [shortstat] and [patch] and runs no diff command: the
    only commands it runs are the listing and the log, whose outputs (or
    the empty string when they fail) are the other two fields.  The
    orchestrator, however, never gets there: whenever the base it resolves
    (the checkpoint, or the root revision) equals head, as in a
    single-commit project without a checkpoint, it prints the no-op line
    and sends no request; a request is sent only when base and head
    differ. *)
Theorem collect_at_equal_revisions env :
  (∀ head s,
     ∃ cs s', git_diff env head head s = (Ok cs, s') ∧
       name_status cs = [] ∧ shortstat cs = [] ∧ patch cs = [] ∧
       tree cs = or_empty (run env CMD_TREE) ∧
       logs cs = or_empty (run env CMD_LOG) ∧
       commands (trace s') = commands (trace s) ++ [CMD_TREE; CMD_LOG])
  ∧
  (∀ d fs head,
     run env CMD_HEAD = Ok head →
     (resolve_last env (boot d fs)).1 = Ok head →
     generations (trace (after env d fs)) = [] ∧
     printed (trace (after env d fs)) = [NO_NEW_COMMITS])
  ∧
  (∀ d fs,
     generations (trace (after env d fs)) ≠ [] →
     ∃ head last,
       run env CMD_HEAD = Ok head ∧
       (resolve_last env (boot d fs)).1 = Ok last ∧
       last ≠ head).
Proof.
  split; [|split].
  - intros head s. eexists _, _. split; [apply git_diff_same|].
    repeat split. rewrite !commands_log_run. by rewrite <- app_assoc.
  - intros d fs head Hh Hl.
    by destruct (skipped_is_noop env d fs head Hh Hl) as (_ & ? & _ & _ & ? & _).
  - intros d fs. unfold after.
    destruct (invoke_outcome env d fs)
      as [e s' Hr|head s' Hh Hl|head last s2 cs s3 Hh Hl Hne Hd Henc
         |head last s2 cs s3 Hh Hl Hne Hd Henc]; cbn [snd].
    + by destruct (quiet_only_ran _ _ Hr (quiet_boot d fs)) as (_ & _ & -> & _).
    + apply resolve_last_frame in Hl.
      pose proof (only_ran_trans _ _ _ (only_ran_boot_log CMD_HEAD d fs) Hl) as Hr.
      destruct (quiet_only_ran _ _ Hr (quiet_boot d fs)) as (_ & _ & Hg & _).
      cbn [log trace]. unfold generations in *. by rewrite omap_app, Hg.
    + intros _. exists head, last. split; [done|]. split; [|done].
      rewrite <- (resolve_last_result env (ERun CMD_HEAD)). by rewrite Hl.
    + intros _. exists head, last. split; [done|]. split; [|done].
      rewrite <- (resolve_last_result env (ERun CMD_HEAD)). by rewrite Hl.
Qed.

Lemma collect_at_equal_revisions_witness :
  generations
    (trace (after (demo_env sha_head sha_head true (Ok (lit "Well done.")))
              (Dir NoFile) ∅)) = [] ∧
  printed
    (trace (after (demo_env sha_head sha_head true (Ok (lit "Well done.")))
              (Dir NoFile) ∅)) = [NO_NEW_COMMITS].
Proof.
  refine (proj1 (proj2 (collect_at_equal_revisions
            (demo_env sha_head sha_head true (Ok (lit "Well done.")))))
            (Dir NoFile) ∅ sha_head _ _);
    vm_compute; reflexivity.
Defined.

(** C5 as stated fails: in a single-commit project without a checkpoint
    (base = head = root revision) the orchestrator does not proceed to the
    generation step; it prints the no-op line and stops. *)
Lemma single_commit_short_circuits :
  stored_revision (Dir NoFile) = None ∧
  (get_head (demo_env sha_head sha_head true (Ok (lit "Well done.")))
     (boot (Dir NoFile) ∅)).1 = Ok sha_head ∧
  (get_initial_commit (demo_env sha_head sha_head true (Ok (lit "Well done.")))
     (boot (Dir NoFile) ∅)).1 = Ok sha_head ∧
  (resolve_last (demo_env sha_head sha_head true (Ok (lit "Well done.")))
     (boot (Dir NoFile) ∅)).1 = Ok sha_head ∧
  generations
    (trace (after (demo_env sha_head sha_head true (Ok (lit "Well done.")))
              (Dir NoFile) ∅)) = [] ∧
  trace (after (demo_env sha_head sha_head true (Ok (lit "Well done.")))
           (Dir NoFile) ∅)
    = [ERun CMD_HEAD; ERun CMD_ROOT; EPrint NO_NEW_COMMITS].
Proof. repeat split; vm_compute; reflexivity. Qed.

Lemma commands_runs t cmds : commands (t ++ (ERun <$> cmds)) = commands t ++ cmds.
Proof.
  unfold commands. rewrite omap_app. f_equal.
  induction cmds as [|c cmds IH]; [done|]. cbn [fmap list_fmap omap list_omap].
  by rewrite IH.
Qed.

Lemma commands_boot d fs : commands (trace (boot d fs)) = [].
Proof. by destruct d. Qed.

Lemma commands_persisted env head u s :
  commands (trace (persisted env head u s)) = commands (trace s).
Proof.
  cbn [persisted trace]. unfold commands. rewrite omap_app. apply app_nil_r.
Qed.

Lemma commands_unwritten env u s :
  commands (trace (unwritten env u s)) = commands (trace s).
Proof.
  cbn [unwritten trace]. unfold commands. rewrite omap_app. apply app_nil_r.
Qed.

Lemma commands_log_print l s :
  commands (trace (log (EPrint l) s)) = commands (trace s).
Proof.
  cbn [log trace]. unfold commands. rewrite omap_app. apply app_nil_r.
Qed.

(** An invocation, step by step. *)
Lemma invoke_eq env d fs :
  invoke env d fs =
    match run env CMD_HEAD with
    | Raise e => (Raise e, log (ERun CMD_HEAD) (boot d fs))
    | Ok head =>
        match resolve_last env (log (ERun CMD_HEAD) (boot d fs)) with
        | (Raise e, s2) => (Raise e, s2)
        | (Ok last, s2) =>
            if decide (last = head)
            then (Ok (), log (EPrint NO_NEW_COMMITS) s2)
            else
              match git_diff env last head s2 with
              | (Raise e, s3) => (Raise e, s3)
              | (Ok cs, s3) =>
                  if encodable (feedback_of env (request_of env fs last head cs))
                  then (Ok (), persisted env head
                                 (request_of env fs last head cs) s3)
                  else (Raise (Exn UnicodeEncodeError
                                 (encode_error_text
                                    (feedback_of env
                                       (request_of env fs last head cs)))),
                        unwritten env (request_of env fs last head cs) s3)
              end
        end
    end.
Proof.
  unfold invoke. rewrite script_eq, main_eq. fold (boot d fs). cbn zeta.
  destruct (run env CMD_HEAD) as [head|e]; [|done].
  destruct (resolve_last env _) as [[last|e] s2] eqn:Hl; [|done].
  destruct (decide (last = head)) as [->|Hne]; [done|].
  destruct (git_diff env last head s2) as [[cs|e] s3] eqn:Hd; [|done].
  pose proof (resolve_last_frame _ _ _ _ Hl) as (Hst2 & Hfs2 & _).
  pose proof (git_diff_frame _ _ _ _ _ _ Hd) as (Hst & Hfs & _).
  cbn [log state files] in *.
  rewrite Hst, Hst2, boot_state, Hfs, Hfs2, boot_files.
  by destruct (encodable _).
Qed.

Lemma diff_failed_aborts env d fs head last e cmds :
  run env CMD_HEAD = Ok head →
  (resolve_last env (boot d fs)).1 = Ok last →
  last ≠ head →
  (∀ s, ∃ s', git_diff env last head s = (Raise e, s') ∧
              trace s' = trace s ++ (ERun <$> cmds)) →
  aborted_at env d fs e cmds.
Proof.
  intros Hh (s2 & Hl & Hr)%resolve_last_at_boot Hne Hd.
  destruct (Hd s2) as (s3 & Hg & Ht).
  destruct Hr as (_ & _ & pre & Hpre).
  assert (trace s3 = trace (boot d fs) ++ (ERun <$> (pre ++ cmds))) as Htr.
  { by rewrite Ht, Hpre, fmap_app, app_assoc. }
  unfold aborted_at, result_of, after.
  rewrite invoke_eq, Hh, Hl, decide_False, Hg by done. cbn [fst snd].
  split; [done|]. split; [by exists pre|].
  rewrite Htr, artifact_writes_runs, checkpoint_writes_runs, generations_runs,
    printed_runs.
  by destruct (boot_quiet d fs) as (-> & -> & -> & ->).
Qed.

Lemma invoke_collected env d fs head last ns ss p :
  run env CMD_HEAD = Ok head →
  (resolve_last env (boot d fs)).1 = Ok last →
  last ≠ head →
  run env (CMD_NAME_STATUS last head) = Ok ns →
  run env (CMD_SHORTSTAT last head) = Ok ss →
  run env (CMD_PATCH last head) = Ok p →
  ∃ pre,
    commands (trace (invoke env d fs).2)
      = pre ++ [CMD_NAME_STATUS last head; CMD_SHORTSTAT last head;
                CMD_PATCH last head; CMD_TREE; CMD_LOG].
Proof.
  intros Hh (s2 & Hl & Hr)%resolve_last_at_boot Hne Hns Hss Hp.
  destruct Hr as (_ & _ & pre & Hpre). exists pre.
  rewrite invoke_eq, Hh, Hl, decide_False, git_diff_ne by done. cbn zeta.
  rewrite Hns, Hss, Hp.
  destruct (encodable _); cbn [snd];
    rewrite ?commands_persisted, ?commands_unwritten, !commands_log_run, Hpre,
      commands_runs, commands_boot;
    by rewrite <- !app_assoc.
Qed.

(** C4.  With base different from head: when one of the three diff
    commands fails, the invocation stops on the exception of that command,
    the last one it ran; up to there it has only run shell commands, so that
    no artifact and no checkpoint was written and no request sent.  When the
    three succeed, a failure of the listing or of the log only makes the
    field empty: the change set is returned, the five commands were run and
    the request composed from that change set is sent; and when the text to
    persist can be encoded, the invocation ends normally with the artifact
    written and the checkpoint set to head. *)
Theorem required_abort_optional_recover env d fs head last :
  run env CMD_HEAD = Ok head →
  (resolve_last env (boot d fs)).1 = Ok last →
  last ≠ head →
  (∀ e, run env (CMD_NAME_STATUS last head) = Raise e →
        aborted_at env d fs e [CMD_NAME_STATUS last head])
  ∧
  (∀ ns e, run env (CMD_NAME_STATUS last head) = Ok ns →
           run env (CMD_SHORTSTAT last head) = Raise e →
           aborted_at env d fs e
             [CMD_NAME_STATUS last head; CMD_SHORTSTAT last head])
  ∧
  (∀ ns ss e, run env (CMD_NAME_STATUS last head) = Ok ns →
              run env (CMD_SHORTSTAT last head) = Ok ss →
              run env (CMD_PATCH last head) = Raise e →
              aborted_at env d fs e
                [CMD_NAME_STATUS last head; CMD_SHORTSTAT last head;
                 CMD_PATCH last head])
  ∧
  (∀ ns ss p, run env (CMD_NAME_STATUS last head) = Ok ns →
              run env (CMD_SHORTSTAT last head) = Ok ss →
              run env (CMD_PATCH last head) = Ok p →
     (∀ s, ∃ cs, (git_diff env last head s).1 = Ok cs ∧
        name_status cs = ns ∧ shortstat cs = ss ∧ patch cs = p ∧
        (∀ e, run env CMD_TREE = Raise e → tree cs = []) ∧
        (∀ t, run env CMD_TREE = Ok t → tree cs = t) ∧
        (∀ e, run env CMD_LOG = Raise e → logs cs = []) ∧
        (∀ l, run env CMD_LOG = Ok l → logs cs = l) ∧
        cs = collected env ns ss p) ∧
     (∃ pre, commands (trace (after env d fs))
               = pre ++ [CMD_NAME_STATUS last head; CMD_SHORTSTAT last head;
                         CMD_PATCH last head; CMD_TREE; CMD_LOG]) ∧
     generations (trace (after env d fs))
       = [(SYSTEM_PROMPT,
           request_of env fs last head (collected env ns ss p))] ∧
     (encodable
        (feedback_of env (request_of env fs last head (collected env ns ss p)))
        = true →
      result_of env d fs = Ok () ∧
      artifact_writes (trace (after env d fs))
        = [(artifact_name env,
            feedback_of env
              (request_of env fs last head (collected env ns ss p)))] ∧
      checkpoint_writes (trace (after env d fs)) = [head] ∧
      state (after env d fs) = checkpoint_record head)).
Proof.
  intros Hh Hl Hne. repeat apply conj.
  - intros e Hns. eapply diff_failed_aborts; [done..|].
    intros s. rewrite git_diff_ne by done. cbn zeta. rewrite Hns. eauto.
  - intros ns e Hns Hss. eapply diff_failed_aborts; [done..|].
    intros s. rewrite git_diff_ne by done. cbn zeta. rewrite Hns, Hss.
    eexists. split; [done|]. cbn [log trace]. by rewrite <- !app_assoc.
  - intros ns ss e Hns Hss Hp. eapply diff_failed_aborts; [done..|].
    intros s. rewrite git_diff_ne by done. cbn zeta. rewrite Hns, Hss, Hp.
    eexists. split; [done|]. cbn [log trace]. by rewrite <- !app_assoc.
  - intros ns ss p Hns Hss Hp. split; [|split; [|split]].
    + intros s. exists (collected env ns ss p).
      rewrite git_diff_ne by done. cbn zeta. rewrite Hns, Hss, Hp.
      cbn [fst collected name_status shortstat patch tree logs].
      repeat split; by intros ? ->.
    + by apply (invoke_collected env d fs head last ns ss p).
    + by apply (invoke_requests env d fs head last ns ss p).
    + intros Henc.
      destruct (invoke_completed env d fs head last ns ss p) as (s3 & Hi & Hr);
        [done..|].
      pose proof (quiet_only_ran _ _ Hr (quiet_boot d fs)) as Hq.
      unfold result_of, after. rewrite Hi. cbn [fst snd].
      by destruct (persisted_writes env head
                     (request_of env fs last head (collected env ns ss p)) s3 Hq)
        as (-> & -> & _).
Qed.

Lemma required_abort_optional_recover_witness :
  aborted_at (demo_env sha_root sha_head false service_down) NoDir ∅
    (Exn CalledProcessError (lit "Command returned non-zero exit status 128."))
    [CMD_NAME_STATUS sha_root sha_head]
  ∧
  ((∀ s, ∃ cs,
      (git_diff (demo_env sha_root sha_head true service_down)
         sha_root sha_head s).1 = Ok cs ∧
      tree cs = [] ∧ logs cs = []) ∧
   length (generations
             (trace (after (demo_env sha_root sha_head true service_down)
                       NoDir ∅))) = 1%nat ∧
   result_of (demo_env sha_root sha_head true service_down) NoDir ∅ = Ok () ∧
   state (after (demo_env sha_root sha_head true service_down) NoDir ∅)
     = checkpoint_record sha_head).
Proof.
  split.
  - refine (proj1 (required_abort_optional_recover
              (demo_env sha_root sha_head false service_down) NoDir ∅
              sha_head sha_root _ _ _) _ _);
      try (vm_compute; reflexivity).
    vm_compute; discriminate.
  - assert (run (demo_env sha_root sha_head true service_down) CMD_HEAD
              = Ok sha_head) as Hh by (vm_compute; reflexivity).
    assert ((resolve_last (demo_env sha_root sha_head true service_down)
               (boot NoDir ∅)).1 = Ok sha_root) as Hl
      by (vm_compute; reflexivity).
    assert (sha_root ≠ sha_head) as Hne by (vm_compute; discriminate).
    destruct (proj2 (proj2 (proj2 (required_abort_optional_recover
                (demo_env sha_root sha_head true service_down) NoDir ∅
                sha_head sha_root Hh Hl Hne)))
              (lit "M	algorithm.py")
              (lit "1 file changed, 1 insertion(+), 1 deletion(-)")
              (lit "@@ -1 +1 @@" ++ [nl] ++ lit "-x = 1" ++ [nl] ++ lit "+x = 2"))
      as (Hcs & _ & Hg & Hend); try (vm_compute; reflexivity).
    destruct Hend as (Hok & _ & _ & Hst); [vm_compute; reflexivity|].
    split; [|split; [by rewrite Hg|split; [exact Hok|exact Hst]]].
    intros s. destruct (Hcs s) as (cs & Hgd & _ & _ & _ & Ht & _ & Hlg & _).
    exists cs. split; [exact Hgd|]. split.
    + eapply Ht. vm_compute. reflexivity.
    + eapply Hlg. vm_compute. reflexivity.
Defined.

(* ===================================================================== *)
(** ** The composed request *)
(* ===================================================================== *)

Lemma format_app t1 t2 args : format (t1 ++ t2) args = format t1 args ++ format t2 args.
Proof. unfold format. by rewrite fmap_app, concat_app. Qed.

Lemma format_ext t args1 args2 :
  (∀ f, args1 f = args2 f) → format t args1 = format t args2.
Proof.
  intros H. unfold format. f_equal. apply list_fmap_ext.
  intros _ [x|f] _; [done|apply H].
Qed.

Lemma template_split :
  USER_PROMPT_TEMPLATE = before_patch ++ [Hole f_patch] ++ after_patch.
Proof. reflexivity. Qed.

Lemma slice_to_length n (s : str) :
  (0 ≤ n)%Z → len (slice_to n s) = Z.min n (len s).
Proof. intros Hn. unfold len, slice_to. rewrite length_take. lia. Qed.

Lemma slice_to_rest n (s : str) : slice_to n s ++ drop (Z.to_nat n) s = s.
Proof. apply take_drop. Qed.

Lemma slice_to_nil (s : str) : slice_to 20000 s = [] → s = [].
Proof. by destruct s. Qed.

(** What the slot of the patch holds. *)
Lemma patch_slot last head cs summary :
  prompt_args last head cs summary f_patch
    = match patch cs with [] => lit "(none)" | _ => slice_to 20000 (patch cs) end.
Proof. reflexivity. Qed.

Lemma request_split env fs last head cs :
  request_of env fs last head cs
    = format before_patch
        (prompt_args last head cs
           (describe_content_status (content_status_of env fs)))
      ++ prompt_args last head cs
           (describe_content_status (content_status_of env fs)) f_patch
      ++ format after_patch
           (prompt_args last head cs
              (describe_content_status (content_status_of env fs))).
Proof.
  unfold request_of. rewrite template_split at 1. rewrite !format_app.
  f_equal. f_equal. unfold format. cbn [fmap list_fmap concat].
  apply app_nil_r.
Qed.

(** C6.  The request an invocation sends is the template filled in, and
    the patch of the run occupies exactly one slot of it.  The slot holds
    the patch cut to its first 20000 characters: what is past the bound is
    dropped and has no influence on the request, and the text that follows
    the slot is the closing fence of the template, with no marker in
    between.  A patch of 20500 characters leaves exactly its first 20000
    characters in the request. *)
Theorem patch_truncated_in_request env d fs head last ns ss p :
  run env CMD_HEAD = Ok head →
  (resolve_last env (boot d fs)).1 = Ok last →
  last ≠ head →
  run env (CMD_NAME_STATUS last head) = Ok ns →
  run env (CMD_SHORTSTAT last head) = Ok ss →
  run env (CMD_PATCH last head) = Ok p →
  ∃ args slot,
    args = prompt_args last head (collected env ns ss p)
             (describe_content_status (content_status_of env fs)) ∧
    slot = args f_patch ∧
    generations (trace (after env d fs))
      = [(SYSTEM_PROMPT,
          format before_patch args ++ slot ++ format after_patch args)] ∧
    (Hole f_patch ∉ before_patch ++ after_patch) ∧
    (∃ rest, format after_patch args = [nl] ++ lit "```" ++ [nl] ++ rest) ∧
    (len slot ≤ 20000)%Z ∧
    (p = [] → slot = lit "(none)") ∧
    (p ≠ [] →
     slot = slice_to 20000 p ∧ slot ++ drop (Z.to_nat 20000) p = p) ∧
    (len p = 20500%Z →
     len slot = 20000%Z ∧
     slot ++ drop (Z.to_nat 20000) p = p ∧
     len (drop (Z.to_nat 20000) p) = 500%Z) ∧
    (∀ p', slice_to 20000 p' = slice_to 20000 p →
       request_of env fs last head (collected env ns ss p')
         = format before_patch args ++ slot ++ format after_patch args).
Proof.
  intros Hh Hl Hne Hns Hss Hp. eexists _, _. split; [reflexivity|].
  split; [reflexivity|].
  assert (p ≠ [] →
          prompt_args last head (collected env ns ss p)
            (describe_content_status (content_status_of env fs)) f_patch
            = slice_to 20000 p) as Hslot.
  { rewrite patch_slot. cbn [collected patch]. by destruct p. }
  repeat apply conj.
  - unfold after. rewrite (invoke_requests env d fs head last ns ss p) by done.
    by rewrite request_split.
  - intros H%list_elem_of_In. vm_compute in H. intuition discriminate.
  - eexists. reflexivity.
  - destruct (decide (p = [])) as [->|Hn].
    + by vm_compute.
    + rewrite Hslot, slice_to_length by done. lia.
  - by intros ->.
  - intros Hn. rewrite Hslot by done. split; [done|apply slice_to_rest].
  - intros Hlen.
    assert (p ≠ []) as Hn by (intros ->; done).
    rewrite Hslot, slice_to_length by done. repeat split.
    + lia.
    + apply slice_to_rest.
    + unfold len in *. rewrite length_drop. lia.
  - intros p' Hp'. rewrite <- request_split. unfold request_of.
    apply format_ext. intros f. destruct f; try reflexivity.
    rewrite !patch_slot. cbn [collected patch].
    destruct p as [|c p], p' as [|c' p']; done.
Qed.

Lemma lstrip_replicate n c (t : str) :
  isspace c = false → lstrip (replicate (S n) c ++ t) = replicate (S n) c ++ t.
Proof. intros Hc. cbn [replicate app lstrip]. by rewrite Hc. Qed.

Lemma strip_replicate_nl n c :
  isspace c = false → strip (replicate (S n) c ++ [nl]) = replicate (S n) c.
Proof.
  intros Hc. unfold strip. rewrite lstrip_replicate by done.
  rewrite reverse_app, reverse_replicate. change (reverse [nl]) with [nl].
  cbn [app lstrip]. change (isspace nl) with true. cbn match.
  rewrite <- (app_nil_r (replicate (S n) c)) at 1.
  rewrite lstrip_replicate by done. by rewrite app_nil_r, reverse_replicate.
Qed.

Lemma run_long_diff :
  run long_diff_env (CMD_PATCH sha_root sha_head) = Ok long_diff.
Proof.
  unfold run, long_diff_env. cbn [subprocess]. rewrite decide_True by done.
  unfold long_diff. replace (Z.to_nat 20500) with (S (Z.to_nat 20499)) by lia.
  by rewrite strip_replicate_nl.
Qed.

Lemma patch_truncated_in_request_witness :
  len long_diff = 20500%Z ∧
  ∃ args slot,
    generations (trace (after long_diff_env NoDir ∅))
      = [(SYSTEM_PROMPT,
          format before_patch args ++ slot ++ format after_patch args)] ∧
    len slot = 20000%Z ∧
    slot ++ drop (Z.to_nat 20000) long_diff = long_diff ∧
    len (drop (Z.to_nat 20000) long_diff) = 500%Z.
Proof.
  assert (len long_diff = 20500%Z) as Hlen by (vm_compute; reflexivity).
  split; [exact Hlen|].
  destruct (patch_truncated_in_request long_diff_env NoDir ∅ sha_head sha_root
              (lit "M	algorithm.py")
              (lit "1 file changed, 1 insertion(+), 1 deletion(-)")
              long_diff)
    as (args & slot & _ & _ & Hg & _ & _ & _ & _ & _ & H & _).
  - vm_compute; reflexivity.
  - vm_compute; reflexivity.
  - vm_compute; discriminate.
  - vm_compute; reflexivity.
  - vm_compute; reflexivity.
  - exact run_long_diff.
  - exists args, slot. split; [exact Hg|]. exact (H Hlen).
Defined.

(* ===================================================================== *)
(** ** The checkpoint store *)
(* ===================================================================== *)

(** C8.  [get_last_processed] never raises: on every store it returns a
    value and changes nothing.  When the state file is missing, cannot be
    parsed, holds a document that is not an object, or holds an object
    without the field (or with a null field), the value is [None] and the
    orchestrator takes the root revision as its base: an invocation on such
    a state runs the root command right after the head command and ends on
    its error when it fails; otherwise the first line of its output is the
    base, so that the invocation is the no-op when that line is head, and
    else runs the diff commands from that line to head and composes the
    request with it. *)
Theorem get_last_processed_total env d fs :
  (∀ s, ∃ v, get_last_processed s = (Ok v, s)) ∧
  (∀ s, no_checkpoint s →
     get_last_processed s = (Ok None, s) ∧
     resolve_last env s = get_initial_commit env s) ∧
  (no_checkpoint (start d fs) →
   ∀ head, run env CMD_HEAD = Ok head →
     (∃ rest, commands (trace (after env d fs))
                = CMD_HEAD :: CMD_ROOT :: rest) ∧
     (∀ e, run env CMD_ROOT = Raise e →
        result_of env d fs = Raise e ∧
        commands (trace (after env d fs)) = [CMD_HEAD; CMD_ROOT]) ∧
     (∀ out, run env CMD_ROOT = Ok out → splitlines out = [] →
        (∃ e, result_of env d fs = Raise e ∧ exn_kind e = IndexError) ∧
        commands (trace (after env d fs)) = [CMD_HEAD; CMD_ROOT]) ∧
     (∀ out root ls, run env CMD_ROOT = Ok out → splitlines out = root :: ls →
        (root = head →
         result_of env d fs = Ok () ∧
         commands (trace (after env d fs)) = [CMD_HEAD; CMD_ROOT] ∧
         printed (trace (after env d fs)) = [NO_NEW_COMMITS] ∧
         generations (trace (after env d fs)) = []) ∧
        (root ≠ head →
         (∃ rest, commands (trace (after env d fs))
                    = CMD_HEAD :: CMD_ROOT
                      :: CMD_NAME_STATUS root head :: rest) ∧
         (∀ ns ss p,
            run env (CMD_NAME_STATUS root head) = Ok ns →
            run env (CMD_SHORTSTAT root head) = Ok ss →
            run env (CMD_PATCH root head) = Ok p →
            commands (trace (after env d fs))
              = [CMD_HEAD; CMD_ROOT; CMD_NAME_STATUS root head;
                 CMD_SHORTSTAT root head; CMD_PATCH root head;
                 CMD_TREE; CMD_LOG] ∧
            generations (trace (after env d fs))
              = [(SYSTEM_PROMPT,
                  request_of env fs root head (collected env ns ss p))])))).
Proof.
  assert (∀ s, no_checkpoint s → stored_revision (state s) = None) as Hnone.
  { intros s H. unfold no_checkpoint, state_file_of, stored_revision in *.
    destruct (state s) as [|[| |[o|]]]; try done.
    destruct H as [?|[?|[?|(o' & [= <-] & [->| ->])]]]; done. }
  split; [intros s; rewrite get_last_processed_eq; eauto|].
  split.
  { intros s H%Hnone.
    by rewrite resolve_last_eq, get_last_processed_eq, get_initial_commit_eq, H. }
  intros Hs%Hnone head Hh. cbn [start state] in Hs.
  assert (resolve_last env (log (ERun CMD_HEAD) (boot d fs))
            = (root_of env,
               log (ERun CMD_ROOT) (log (ERun CMD_HEAD) (boot d fs)))) as Hl.
  { rewrite resolve_last_eq. cbn [log state]. by rewrite boot_stored, Hs. }
  assert (∀ c1 c2 d fs,
            commands (trace (log (ERun c2) (log (ERun c1) (boot d fs))))
              = [c1; c2]) as Hc.
  { intros. by rewrite !commands_log_run, commands_boot. }
  unfold result_of, after. rewrite invoke_eq, Hh, Hl. unfold root_of.
  repeat apply conj.
  - destruct (run env CMD_ROOT) as [out|e]; cbv beta iota; cbn [fst snd];
      [|rewrite Hc; eauto].
    destruct (splitlines out) as [|root ls]; cbv beta iota; cbn [fst snd];
      [rewrite Hc; eauto|].
    destruct (decide (root = head)) as [->|Hne]; cbv beta iota; cbn [fst snd].
    { rewrite commands_log_print, Hc. eauto. }
    rewrite git_diff_ne by done. cbn zeta.
    destruct (run env (CMD_NAME_STATUS root head));
      [destruct (run env (CMD_SHORTSTAT root head));
        [destruct (run env (CMD_PATCH root head));
          [destruct (encodable _)|]|]|];
      cbv beta iota; cbn [fst snd];
      rewrite ?commands_persisted, ?commands_unwritten, !commands_log_run,
        commands_boot; cbn [app]; eauto.
  - intros e ->. cbv beta iota; cbn [fst snd]. by rewrite Hc.
  - intros out -> ->. cbv beta iota; cbn [fst snd]. rewrite Hc.
    split; [|done]. eauto.
  - intros out root ls Hout Hlines. rewrite Hout, Hlines.
    cbv beta iota; cbn [fst snd]. split.
    + intros ->. rewrite decide_True by done. cbn [fst snd].
      rewrite commands_log_print, Hc. cbn [log trace].
      unfold printed, generations. rewrite !omap_app.
      destruct (boot_quiet d fs) as (_ & _ & Hg & Hp).
      unfold printed, generations in Hg, Hp. by rewrite Hg, Hp.
    + intros Hne. rewrite decide_False by done. split.
      * rewrite git_diff_ne by done. cbn zeta.
        destruct (run env (CMD_NAME_STATUS root head));
          [destruct (run env (CMD_SHORTSTAT root head));
            [destruct (run env (CMD_PATCH root head));
              [destruct (encodable _)|]|]|];
          cbv beta iota; cbn [fst snd];
          rewrite ?commands_persisted, ?commands_unwritten, !commands_log_run,
            commands_boot; cbn [app]; eauto.
      * intros ns ss p Hns Hss Hp. split.
        -- rewrite git_diff_ne by done. cbn zeta. rewrite Hns, Hss, Hp.
           destruct (encodable _); cbn [snd];
             by rewrite ?commands_persisted, ?commands_unwritten,
               !commands_log_run, commands_boot.
        -- assert ((resolve_last env (boot d fs)).1 = Ok root) as Hr.
           { rewrite resolve_last_eq, boot_stored, Hs. unfold root_of.
             by rewrite Hout, Hlines. }
           pose proof (invoke_requests env d fs head root ns ss p
                         Hh Hr Hne Hns Hss Hp) as Hg.
           rewrite invoke_eq, Hh, Hl in Hg. unfold root_of in Hg.
           by rewrite Hout, Hlines, decide_False in Hg.
Qed.

Lemma get_last_processed_total_witness :
  get_last_processed (start (Dir Unparseable) ∅)
    = (Ok None, start (Dir Unparseable) ∅) ∧
  commands
    (trace (after (demo_env sha_root sha_head true service_down)
              (Dir Unparseable) ∅))
    = [CMD_HEAD; CMD_ROOT; CMD_NAME_STATUS sha_root sha_head;
       CMD_SHORTSTAT sha_root sha_head; CMD_PATCH sha_root sha_head;
       CMD_TREE; CMD_LOG] ∧
  generations
    (trace (after (demo_env sha_root sha_head true service_down)
              (Dir Unparseable) ∅))
    = [(SYSTEM_PROMPT,
        request_of (demo_env sha_root sha_head true service_down) ∅
          sha_root sha_head
          (collected (demo_env sha_root sha_head true service_down)
             (lit "M	algorithm.py")
             (lit "1 file changed, 1 insertion(+), 1 deletion(-)")
             (lit "@@ -1 +1 @@" ++ [nl] ++ lit "-x = 1" ++ [nl]
              ++ lit "+x = 2")))].
Proof.
  assert (no_checkpoint (start (Dir Unparseable) ∅)) as Hn
    by (right; left; reflexivity).
  destruct (get_last_processed_total
              (demo_env sha_root sha_head true service_down)
              (Dir Unparseable) ∅) as (_ & Hget & Hrun).
  split; [exact (proj1 (Hget _ Hn))|].
  destruct (Hrun Hn sha_head) as (_ & _ & _ & Hroot);
    [vm_compute; reflexivity|].
  destruct (Hroot (sha_root) sha_root []) as (_ & Hbase);
    try (vm_compute; reflexivity).
  destruct Hbase as (_ & Hreq); [vm_compute; discriminate|].
  apply Hreq; vm_compute; reflexivity.
Defined.

(* ===================================================================== *)
(** ** The content classifier *)
(* ===================================================================== *)

Lemma code_len_eq (text : str) :
  match text with
  | [] => 0%Z
  | _ => len (strip_comments_and_ws_py text)
  end = len (strip_comments_and_ws_py text).
Proof. by destruct text. Qed.

Lemma pseudo_len_eq (text : str) :
  match text with
  | [] => 0%Z
  | _ => len (strip_md text)
  end = len (strip_md text).
Proof. by destruct text. Qed.

(** C7.  [detect_content_status] always returns; the lengths it reports are
    those of the stripped documents (an absent document counting as
    empty), the code is marked meaningful exactly when its stripped length
    is at least 80 and the pseudocode exactly when its stripped length is
    at least 120: 79 is not meaningful code and 80 is, 119 is not meaningful
    pseudocode and 120 is. *)
Theorem classification_thresholds env s :
  ∃ status,
    detect_content_status env s = (Ok status, s) ∧
    code_len status
      = len (strip_comments_and_ws_py (default [] (files s !! CODE_FILE))) ∧
    pseudo_len status
      = len (strip_md (default [] (files s !! PSEUDO_FILE))) ∧
    (has_code status = true ↔ (80 ≤ code_len status)%Z) ∧
    (has_pseudo status = true ↔ (120 ≤ pseudo_len status)%Z) ∧
    (code_len status = 79%Z → has_code status = false) ∧
    (code_len status = 80%Z → has_code status = true) ∧
    (pseudo_len status = 119%Z → has_pseudo status = false) ∧
    (pseudo_len status = 120%Z → has_pseudo status = true).
Proof.
  exists (content_status_of env (files s)).
  split; [apply detect_content_status_eq|].
  unfold content_status_of. cbn [code_len pseudo_len has_code has_pseudo].
  rewrite code_len_eq, pseudo_len_eq.
  repeat split; try (intros ->; reflexivity); try apply Z.leb_le.
Qed.

Lemma classification_thresholds_witness :
  (∃ status,
     detect_content_status (demo_env sha_root sha_head true service_down)
       (start NoDir (sample_files 80 115))
       = (Ok status, start NoDir (sample_files 80 115)) ∧
     has_code status = true ∧ has_pseudo status = false) ∧
  (∃ status,
     detect_content_status (demo_env sha_root sha_head true service_down)
       (start NoDir (sample_files 79 116))
       = (Ok status, start NoDir (sample_files 79 116)) ∧
     has_code status = false ∧ has_pseudo status = true).
Proof.
  split.
  - destruct (classification_thresholds
                (demo_env sha_root sha_head true service_down)
                (start NoDir (sample_files 80 115)))
      as (st & Hd & Hc & Hp & _ & _ & _ & H80 & H119 & _).
    exists st. split; [exact Hd|]. split.
    + apply H80. rewrite Hc. vm_compute. reflexivity.
    + apply H119. rewrite Hp. vm_compute. reflexivity.
  - destruct (classification_thresholds
                (demo_env sha_root sha_head true service_down)
                (start NoDir (sample_files 79 116)))
      as (st & Hd & Hc & Hp & _ & _ & H79 & _ & _ & H120).
    exists st. split; [exact Hd|]. split.
    + apply H79. rewrite Hc. vm_compute. reflexivity.
    + apply H120. rewrite Hp. vm_compute. reflexivity.
Defined.

(** C9.  With neither [algorithm.py] nor [PSEUDOCODE.md] in the working
    directory, [detect_content_status] returns (no exception): both lengths
    are 0, neither document is meaningful, and the summary of that status
    contains the note that no substantial code or pseudocode was detected
    (it is that note, followed by the note on tests when there are none). *)
Theorem missing_documents_tolerated env s :
  files s !! CODE_FILE = None →
  files s !! PSEUDO_FILE = None →
  ∃ status,
    detect_content_status env s = (Ok status, s) ∧
    code_len status = 0%Z ∧ pseudo_len status = 0%Z ∧
    has_code status = false ∧ has_pseudo status = false ∧
    contains NO_SUBSTANCE (describe_content_status status) = true ∧
    describe_content_status status
      = if tests_exist status then NO_SUBSTANCE
        else NO_SUBSTANCE ++ lit " " ++ NO_TESTS.
Proof.
  intros Hc Hp. exists (content_status_of env (files s)).
  split; [apply detect_content_status_eq|].
  unfold content_status_of. rewrite Hc, Hp.
  cbn [default code_len pseudo_len has_code has_pseudo tests_exist].
  change (80 <=? 0)%Z with false. change (120 <=? 0)%Z with false.
  repeat split;
    unfold describe_content_status, details_of;
    cbn [has_code has_pseudo tests_exist];
    destruct (tests_dir env) as [[|t ts]|]; vm_compute; reflexivity.
Qed.

Lemma missing_documents_tolerated_witness :
  ∃ status,
    detect_content_status (demo_env sha_root sha_head true service_down)
      (start NoDir ∅) = (Ok status, start NoDir ∅) ∧
    code_len status = 0%Z ∧ pseudo_len status = 0%Z ∧
    has_code status = false ∧ has_pseudo status = false ∧
    contains NO_SUBSTANCE (describe_content_status status) = true ∧
    describe_content_status status
      = if tests_exist status then NO_SUBSTANCE
        else NO_SUBSTANCE ++ lit " " ++ NO_TESTS.
Proof.
  apply (missing_documents_tolerated
           (demo_env sha_root sha_head true service_down) (start NoDir ∅));
    reflexivity.
Defined.

(** C10.  For every content status the list of notes of
    [describe_content_status] is not empty: when neither document is
    meaningful it holds the note that nothing substantial was detected, and
    otherwise a note on the code or on the pseudocode.  The summary is
    therefore the notes joined by blanks and never the sentence of the
    empty case. *)
Theorem summary_never_unclear status :
  details_of status ≠ [] ∧
  describe_content_status status = join (lit " ") (details_of status) ∧
  describe_content_status status ≠ UNCLEAR ∧
  (has_code status = false → has_pseudo status = false →
   NO_SUBSTANCE ∈ details_of status).
Proof.
  destruct status as [cl pl hc hp te].
  unfold describe_content_status, details_of.
  cbn [has_code has_pseudo tests_exist code_len pseudo_len].
  repeat apply conj.
  - by destruct hc, hp, te.
  - by destruct hc, hp, te.
  - intros H. apply (f_equal (hd 0)) in H.
    destruct hc, hp, te; by vm_compute in H.
  - intros -> ->. cbn. destruct te; set_solver.
Qed.

Lemma summary_never_unclear_witness :
  NO_SUBSTANCE ∈
    details_of {| code_len := 12; pseudo_len := 0; has_code := false;
                  has_pseudo := false; tests_exist := true |}.
Proof.
  apply (summary_never_unclear
           {| code_len := 12; pseudo_len := 0; has_code := false;
              has_pseudo := false; tests_exist := true |});
    reflexivity.
Defined.

(* ===================================================================== *)
(** ** Texts that can be encoded *)
(* ===================================================================== *)

Lemma encodable_Forall s :
  encodable s = true ↔ Forall (λ c, is_surrogate c = false) s.
Proof.
  unfold encodable. induction s as [|c s IH]; cbn [forallb].
  - split; [constructor|done].
  - rewrite andb_true_iff, negb_true_iff, IH. split.
    + intros [? ?]. by constructor.
    + by inversion 1.
Qed.

Lemma encodable_app a b : encodable (a ++ b) = encodable a && encodable b.
Proof. apply forallb_app. Qed.

Lemma isspace_not_surrogate c : isspace c = true → is_surrogate c = false.
Proof.
  unfold isspace, is_surrogate.
  rewrite !orb_true_iff, !andb_true_iff, andb_false_iff, !N.leb_le,
    !N.leb_gt, !N.eqb_eq. lia.
Qed.

Lemma encodable_lstrip s : encodable (lstrip s) = encodable s.
Proof.
  induction s as [|c s IH]; [done|]. cbn [lstrip].
  destruct (isspace c) eqn:Hc; [|done].
  rewrite IH. unfold encodable. cbn [forallb].
  by rewrite (isspace_not_surrogate c Hc).
Qed.

Lemma encodable_reverse s : encodable (reverse s) = encodable s.
Proof.
  apply Bool.eq_iff_eq_true. by rewrite !encodable_Forall, Forall_reverse.
Qed.

(** Stripping neither removes nor adds a surrogate. *)
Lemma encodable_strip s : encodable (strip s) = encodable s.
Proof.
  unfold strip.
  by rewrite encodable_reverse, encodable_lstrip, encodable_reverse,
    encodable_lstrip.
Qed.

Lemma split_on_Forall (P : N → Prop) sep s :
  Forall P s → Forall (Forall P) (split_on sep s).
Proof.
  induction 1 as [|c s Hc Hs IH]; cbn [split_on]; [by repeat constructor|].
  destruct (c =? sep); [by constructor|].
  destruct (split_on sep s) as [|l ls]; [by repeat constructor|].
  inversion_clear IH. constructor; [by constructor|done].
Qed.

Lemma join_Forall (P : N → Prop) sep parts :
  Forall P sep → Forall (Forall P) parts → Forall P (join sep parts).
Proof.
  intros Hsep. induction 1 as [|p ps Hp Hps IH]; [constructor|].
  cbn [join]. destruct ps as [|q ps]; [done|].
  apply Forall_app. split; [done|]. apply Forall_app. by split.
Qed.

Lemma dedent_Forall (P : N → Prop) text :
  P nl → Forall P text → Forall P (dedent text).
Proof.
  intros Hnl Htext. unfold dedent. apply join_Forall; [by repeat constructor|].
  apply Forall_fmap, Forall_fmap.
  eapply Forall_impl; [by apply split_on_Forall|].
  intros l Hl. cbn [compose]. unfold remove_margin, normalize_blank_line.
  repeat case_match; try apply Forall_drop; done || constructor.
Qed.

(** The fallback document can be encoded when the error message can. *)
Lemma fallback_encodable e :
  encodable (exn_text e) = true → encodable (dedent (fallback_literal e)) = true.
Proof.
  intros He. apply encodable_Forall, dedent_Forall; [done|].
  apply encodable_Forall. unfold fallback_literal.
  rewrite !encodable_app, He. vm_compute. reflexivity.
Qed.

(* ===================================================================== *)
(** ** The fallback document *)
(* ===================================================================== *)

Lemma split_on_app sep (a b : str) :
  sep ∉ a → split_on sep (a ++ sep :: b) = a :: split_on sep b.
Proof.
  induction a as [|c a IH]; intros Hn; cbn [app split_on].
  - by rewrite N.eqb_refl.
  - apply not_elem_of_cons in Hn as [Hc Ha].
    rewrite (proj2 (N.eqb_neq c sep)) by done. by rewrite IH.
Qed.

Lemma split_on_single sep (a : str) : sep ∉ a → split_on sep a = [a].
Proof.
  induction a as [|c a IH]; intros Hn; cbn [split_on]; [done|].
  apply not_elem_of_cons in Hn as [Hc Ha].
  rewrite (proj2 (N.eqb_neq c sep)) by done. by rewrite IH.
Qed.

Lemma literal_no_newline (a : str) :
  forallb (λ c, negb (c =? nl)) a = true → nl ∉ a.
Proof.
  induction a as [|c a IH]; cbn [forallb]; [intros _; apply not_elem_of_nil|].
  intros [Hc Ha]%andb_true_iff. apply not_elem_of_cons. split; [|auto].
  apply negb_true_iff, N.eqb_neq in Hc. done.
Qed.

(** When the error message has no line feed, the code produces the
    document of the specification. *)
Lemma fallback_single_line e :
  nl ∉ exn_text e → dedent (fallback_literal e) = fallback_document e.
Proof.
  destruct e as [k msg]. cbn [exn_text]. intros Hmsg.
  unfold dedent, fallback_literal, fallback_document. cbn [exn_text].
  replace (indent12 ++ lit "# Meta-Feedback (Process-Oriented)" ++ [nl]
           ++ indent12 ++ lit "The feedback service encountered an error: "
           ++ msg ++ [nl]
           ++ indent12 ++ lit "Please retry the instructor-triggered workflow."
           ++ [nl] ++ indent12)
    with ((indent12 ++ lit "# Meta-Feedback (Process-Oriented)") ++ nl ::
          ((indent12 ++ lit "The feedback service encountered an error: ")
             ++ msg) ++ nl ::
          (indent12 ++ lit "Please retry the instructor-triggered workflow.")
            ++ nl :: indent12)
    by (by rewrite <- !app_assoc).
  rewrite split_on_app by (by apply literal_no_newline).
  rewrite split_on_app.
  2:{ apply not_elem_of_app. split; [by apply literal_no_newline|done]. }
  rewrite split_on_app by (by apply literal_no_newline).
  rewrite split_on_single by (by apply literal_no_newline).
  vm_compute. reflexivity.
Qed.

(** X18.  Every failure of the chat service whose message can be encoded
    is caught: the invocation runs to its end, the artifact holds [dedent]
    of the fallback literal, which is the heading, the line with the error
    message and the retry line when the message has no line feed, and the
    checkpoint is set to head. *)
Lemma generation_failure_recovered env d fs head last ns ss p e :
  run env CMD_HEAD = Ok head →
  (resolve_last env (boot d fs)).1 = Ok last →
  last ≠ head →
  run env (CMD_NAME_STATUS last head) = Ok ns →
  run env (CMD_SHORTSTAT last head) = Ok ss →
  run env (CMD_PATCH last head) = Ok p →
  (∀ u, chat env SYSTEM_PROMPT u = Raise e) →
  encodable (exn_text e) = true →
  result_of env d fs = Ok () ∧
  generations (trace (after env d fs))
    = [(SYSTEM_PROMPT, request_of env fs last head (collected env ns ss p))] ∧
  artifact_writes (trace (after env d fs))
    = [(artifact_name env, dedent (fallback_literal e))] ∧
  files (after env d fs) !! artifact_name env
    = Some (dedent (fallback_literal e)) ∧
  state (after env d fs) = checkpoint_record head ∧
  (nl ∉ exn_text e →
   files (after env d fs) !! artifact_name env = Some (fallback_document e)).
Proof.
  intros Hh Hl Hne Hns Hss Hp Hchat Henc.
  destruct (invoke_completed env d fs head last ns ss p) as (s3 & Hi & Hr);
    [done..| |].
  { unfold feedback_of. rewrite Hchat. by apply fallback_encodable. }
  pose proof (quiet_only_ran _ _ Hr (quiet_boot d fs)) as Hq.
  destruct (persisted_writes env head
              (request_of env fs last head (collected env ns ss p)) s3 Hq)
    as (Hw & _ & Hg & _).
  unfold result_of, after. rewrite Hi. cbn [fst snd]. rewrite Hw, Hg.
  cbn [persisted files state]. unfold feedback_of. rewrite Hchat.
  rewrite lookup_insert_eq. repeat split. intros Hmsg.
  by rewrite fallback_single_line.
Qed.

(** C3, on a failing input.  The failure is caught, the artifact is
    written and the checkpoint advances to head; but the text of the
    artifact is not the document with the error verbatim: the lines of the
    template keep the indentation of the source, the line of two spaces of
    the message has become empty, and the message is no part of the
    text. *)
Theorem fallback_alters_multiline_error :
  result_of (demo_env sha_root sha_head true (Raise gateway_error)) NoDir ∅
    = Ok () ∧
  state (after (demo_env sha_root sha_head true (Raise gateway_error)) NoDir ∅)
    = checkpoint_record sha_head ∧
  artifact_writes
    (trace (after (demo_env sha_root sha_head true (Raise gateway_error))
              NoDir ∅))
    = [(lit "Meta-Feedback_20250101_0930.md",
        dedent (fallback_literal gateway_error))] ∧
  dedent (fallback_literal gateway_error)
    = indent12 ++ lit "# Meta-Feedback (Process-Oriented)" ++ [nl]
      ++ indent12 ++ lit "The feedback service encountered an error: "
      ++ lit "Error code: 502" ++ [nl]
      ++ [nl]
      ++ lit "Bad Gateway" ++ [nl]
      ++ indent12 ++ lit "Please retry the instructor-triggered workflow."
      ++ [nl] ∧
  dedent (fallback_literal gateway_error) ≠ fallback_document gateway_error ∧
  contains (exn_text gateway_error) (dedent (fallback_literal gateway_error))
    = false ∧
  contains (exn_text gateway_error) (fallback_document gateway_error) = true.
Proof.
  repeat split; try (vm_compute; reflexivity). vm_compute. discriminate.
Qed.

(* ===================================================================== *)
(** ** Further properties of the script *)
(* ===================================================================== *)

(** *** Stripping whitespace *)

Lemma lstrip_suffix s : lstrip s `suffix_of` s.
Proof.
  induction s as [|c s IH]; cbn [lstrip]; [done|].
  destruct (isspace c); [by apply suffix_cons_r|done].
Qed.

Lemma lstrip_head s c r : lstrip s = c :: r → isspace c = false.
Proof.
  induction s as [|a s IH]; cbn [lstrip]; [done|].
  destruct (isspace a) eqn:Ha; [done|]. by intros [= <- _].
Qed.

Lemma lstrip_fixed s : (∀ c r, s = c :: r → isspace c = false) → lstrip s = s.
Proof.
  destruct s as [|c s]; [done|]. intros H. cbn [lstrip].
  by rewrite (H c s eq_refl).
Qed.

Lemma strip_head s c r : strip s = c :: r → isspace c = false.
Proof.
  unfold strip. intros H.
  destruct (lstrip_suffix (reverse (lstrip s))) as [k Hk].
  apply (f_equal reverse) in Hk.
  rewrite reverse_involutive, reverse_app, H in Hk.
  by apply (lstrip_head s c (r ++ reverse k)).
Qed.

Lemma strip_last s c r : strip s = r ++ [c] → isspace c = false.
Proof.
  unfold strip. intros H. apply (f_equal reverse) in H.
  rewrite reverse_involutive, reverse_app in H.
  by apply (lstrip_head _ _ _ H).
Qed.

Lemma strip_idempotent s : strip (strip s) = strip s.
Proof.
  unfold strip at 1.
  rewrite (lstrip_fixed (strip s)) by (intros c r; apply strip_head).
  rewrite lstrip_fixed; [apply reverse_involutive|].
  intros c r H. apply (f_equal reverse) in H.
  rewrite reverse_involutive, reverse_cons in H. by apply (strip_last s c (reverse r)).
Qed.

(** *** Lines *)

Lemma linebreak_isspace c : is_linebreak c = true → isspace c = true.
Proof.
  unfold is_linebreak, isspace.
  rewrite !orb_true_iff, !andb_true_iff, !N.leb_le, !N.eqb_eq. lia.
Qed.

Lemma splitlines_go_first cur s l ls :
  splitlines_go cur s = l :: ls →
  ∃ pre rest, l = reverse cur ++ pre ∧ s = pre ++ rest ∧
              Forall (λ c, is_linebreak c = false) pre ∧
              (rest = [] ∨ ∃ c r, rest = c :: r ∧ is_linebreak c = true).
Proof.
  revert cur. induction s as [|c s IH]; intros cur; cbn [splitlines_go].
  - destruct cur; [done|]. intros [= <- <-]. exists [], [].
    rewrite app_nil_r. eauto.
  - destruct (is_linebreak c) eqn:Hc.
    + intros [= <- _]. exists [], (c :: s). rewrite app_nil_r. eauto 10.
    + intros (pre & rest & -> & -> & Hpre & Hrest)%IH.
      exists (c :: pre), rest. rewrite reverse_cons, <- app_assoc.
      split; [done|]. split; [done|]. split; [by constructor|done].
Qed.

Lemma splitlines_go_nonempty cur s : cur ≠ [] → splitlines_go cur s ≠ [].
Proof.
  revert cur. induction s as [|c s IH]; intros cur Hcur; cbn [splitlines_go].
  - by destruct cur.
  - destruct (is_linebreak c); [done|]. by apply IH.
Qed.

Lemma splitlines_nil s : splitlines s = [] ↔ s = [].
Proof.
  split; [|by intros ->]. unfold splitlines.
  destruct s as [|c s]; [done|]. cbn [splitlines_go].
  destruct (is_linebreak c); [done|]. intros H.
  by apply splitlines_go_nonempty in H.
Qed.

(** *** The strippers only delete *)

Lemma Forall_sublist {A} (P : A → Prop) (l k : list A) :
  l `sublist_of` k → Forall P k → Forall P l.
Proof.
  intros Hs Hk. apply Forall_forall. intros x Hx.
  rewrite Forall_forall in Hk. eauto using elem_of_sublist.
Qed.

Lemma sub_hash_comments_sublist b s : sub_hash_comments b s `sublist_of` s.
Proof.
  revert b. induction s as [|c s IH]; intros b; cbn [sub_hash_comments]; [done|].
  repeat case_match; auto using sublist_skip, sublist_cons.
Qed.

Lemma sub_hash_comments_no_hash b s : 35 ∉ sub_hash_comments b s.
Proof.
  revert b. induction s as [|c s IH]; intros b; cbn [sub_hash_comments].
  - apply not_elem_of_nil.
  - destruct b.
    + destruct (c =? nl) eqn:Hc; [|done].
      apply N.eqb_eq in Hc as ->. by apply not_elem_of_cons.
    + destruct (c =? 35) eqn:Hc; [done|].
      apply N.eqb_neq in Hc. apply not_elem_of_cons. split; [done|auto].
Qed.

Lemma sub_spans_sublist open close skip inside s :
  sub_spans open close skip inside s `sublist_of` s.
Proof.
  revert skip inside.
  induction s as [|c s IH]; intros skip inside; cbn [sub_spans]; [done|].
  repeat case_match; auto using sublist_skip, sublist_cons.
Qed.

Lemma sub_delimited_sublist open close s : sub_delimited open close s `sublist_of` s.
Proof. apply sub_spans_sublist. Qed.

Lemma sub_whitespace_spec s :
  sub_whitespace s `sublist_of` s ∧ Forall (λ c, isspace c = false) (sub_whitespace s).
Proof.
  split; [apply sublist_filter|].
  apply Forall_forall. by intros c [Hc _]%list_elem_of_filter.
Qed.

Lemma sub_md_markup_spec s :
  sub_md_markup s `sublist_of` s ∧
  Forall (λ c, is_md_markup c = false) (sub_md_markup s).
Proof.
  split; [apply sublist_filter|].
  apply Forall_forall. by intros c [Hc _]%list_elem_of_filter.
Qed.

Lemma strip_comments_sublist text :
  strip_comments_and_ws_py text `sublist_of` text.
Proof.
  unfold strip_comments_and_ws_py.
  etrans; [apply sub_whitespace_spec|].
  etrans; [apply sub_delimited_sublist|].
  etrans; [apply sub_delimited_sublist|apply sub_hash_comments_sublist].
Qed.

Lemma strip_md_sublist text : strip_md text `sublist_of` text.
Proof.
  unfold strip_md.
  etrans; [apply sub_whitespace_spec|].
  etrans; [apply sub_md_markup_spec|].
  etrans; apply sub_delimited_sublist.
Qed.

Lemma sublist_len (a b : str) : a `sublist_of` b → (len a ≤ len b)%Z.
Proof. intros H%sublist_length. unfold len. lia. Qed.

(** X7.  [strip_comments_and_ws_py] only deletes characters: its result
    is a subsequence of the text, hence not longer, and holds neither a
    whitespace character nor a [#]. *)
Theorem strip_comments_only_deletes text :
  strip_comments_and_ws_py text `sublist_of` text ∧
  (len (strip_comments_and_ws_py text) ≤ len text)%Z ∧
  Forall (λ c, isspace c = false ∧ c ≠ 35) (strip_comments_and_ws_py text).
Proof.
  split; [apply strip_comments_sublist|].
  split; [apply sublist_len, strip_comments_sublist|].
  apply Forall_forall. intros c Hc. split.
  - unfold strip_comments_and_ws_py in Hc.
    destruct (sub_whitespace_spec
      (sub_delimited (triple squote) (triple squote)
         (sub_delimited (triple dquote) (triple dquote)
            (sub_hash_comments false text)))) as [_ Hw].
    rewrite Forall_forall in Hw. by apply Hw.
  - intros ->. apply (sub_hash_comments_no_hash false text).
    unfold strip_comments_and_ws_py in Hc.
    eapply elem_of_sublist; [done|].
    etrans; [apply sub_whitespace_spec|].
    etrans; apply sub_delimited_sublist.
Qed.

(** X8.  [strip_md] only deletes characters: its result is a subsequence
    of the text, hence not longer, and holds neither a whitespace character
    nor one of the markup characters [# > * ` _ ~ -]. *)
Theorem strip_md_only_deletes text :
  strip_md text `sublist_of` text ∧
  (len (strip_md text) ≤ len text)%Z ∧
  Forall (λ c, isspace c = false ∧ is_md_markup c = false) (strip_md text).
Proof.
  split; [apply strip_md_sublist|].
  split; [apply sublist_len, strip_md_sublist|].
  unfold strip_md.
  set (t1 := sub_delimited (triple 96) (triple 96) text).
  set (t2 := sub_delimited (lit "<!--") (lit "-->") t1).
  destruct (sub_md_markup_spec t2) as [Hm1 Hm2].
  destruct (sub_whitespace_spec (sub_md_markup t2)) as [Hw1 Hw2].
  apply Forall_forall. intros c Hc. split.
  - rewrite Forall_forall in Hw2. by apply Hw2.
  - rewrite Forall_forall in Hm2. apply Hm2. eauto using elem_of_sublist.
Qed.

(** *** The shell helpers *)

(** X2.  [sh] returns the output of the command stripped, and raises
    exactly when the command fails, with the error of the command.  The
    text it returns is stripped: stripping it again changes nothing, and it
    neither starts nor ends with a whitespace character. *)
Theorem sh_output_stripped env cmd s :
  match subprocess env cmd with
  | Ok raw =>
      (sh env cmd s).1 = Ok (strip raw) ∧
      strip (strip raw) = strip raw ∧
      (∀ c, head (strip raw) = Some c → isspace c = false) ∧
      (∀ c, last (strip raw) = Some c → isspace c = false)
  | Raise e => (sh env cmd s).1 = Raise e
  end.
Proof.
  rewrite sh_eq. unfold run.
  destruct (subprocess env cmd) as [raw|e]; [|done].
  split; [done|]. split; [apply strip_idempotent|]. split.
  - intros c Hc. destruct (strip raw) as [|a r] eqn:E; [done|].
    injection Hc as ->. by apply (strip_head raw c r).
  - intros c Hc. apply last_Some in Hc as [r Hr]. by apply (strip_last raw c r).
Qed.

(** The first line of a stripped output. *)
Lemma root_of_first_line env root :
  root_of env = Ok root →
  root ≠ [] ∧
  Forall (λ c, is_linebreak c = false) root ∧
  ∃ rest, run env CMD_ROOT = Ok (root ++ rest) ∧
          (rest = [] ∨ ∃ c r, rest = c :: r ∧ is_linebreak c = true).
Proof.
  unfold root_of.
  destruct (run env CMD_ROOT) as [out|e] eqn:Hrun; [|done].
  destruct (splitlines out) as [|first ls] eqn:Hl; [done|].
  intros [= <-]. split; [|split].
  - intros ->. unfold splitlines in Hl.
    destruct out as [|c out]; [done|]. cbn [splitlines_go] in Hl.
    destruct (is_linebreak c) eqn:Hc.
    + apply linebreak_isspace in Hc.
      assert (isspace c = false) as Hn; [|congruence].
      unfold run in Hrun. destruct (subprocess env CMD_ROOT) as [raw|]; [|done].
      injection Hrun as Hrun. by apply (strip_head raw c out).
    + apply splitlines_go_first in Hl as (pre & rest & Hp & _).
      cbn in Hp. by destruct pre.
  - apply splitlines_go_first in Hl as (pre & rest & -> & _ & Hpre & _). done.
  - apply splitlines_go_first in Hl as (pre & rest & -> & -> & _ & Hrest).
    by exists rest.
Qed.

(** X3.  [get_initial_commit] returns the first line of the stripped
    output of the command, also when the repository has several root
    commits: the result is not empty and holds no line break, and the
    output is the result followed by nothing or by a line break.  It raises
    either the error of the command, or [IndexError] when the output is
    empty once stripped. *)
Theorem get_initial_commit_first_line env s :
  match get_initial_commit env s with
  | (Ok root, s') =>
      root ≠ [] ∧
      Forall (λ c, is_linebreak c = false) root ∧
      (∃ rest, (sh env CMD_ROOT s).1 = Ok (root ++ rest) ∧
               (rest = [] ∨ ∃ c r, rest = c :: r ∧ is_linebreak c = true)) ∧
      s' = log (ERun CMD_ROOT) s
  | (Raise e, s') =>
      ((sh env CMD_ROOT s).1 = Raise e ∨
       ((sh env CMD_ROOT s).1 = Ok [] ∧ exn_kind e = IndexError)) ∧
      s' = log (ERun CMD_ROOT) s
  end.
Proof.
  rewrite get_initial_commit_eq, sh_eq. cbn [fst].
  destruct (root_of env) as [root|e] eqn:Hroot.
  - destruct (root_of_first_line env root Hroot) as (? & ? & ?). done.
  - split; [|done]. unfold root_of in Hroot.
    destruct (run env CMD_ROOT) as [out|e'] eqn:Hrun; [|left; congruence].
    destruct (splitlines out) as [|first ls] eqn:Hl; [|done].
    apply splitlines_nil in Hl as ->. right. by injection Hroot as <-.
Qed.

(** X4.  The base that [main] resolves is never the empty string: it is
    the stored revision, or, when nothing or the empty string is stored,
    the root revision. *)
Theorem resolve_last_never_empty env s last s' :
  resolve_last env s = (Ok last, s') →
  last ≠ [] ∧
  (stored_revision (state s) = Some last ∨
   ((stored_revision (state s) = None ∨ stored_revision (state s) = Some []) ∧
    (get_initial_commit env s).1 = Ok last)).
Proof.
  rewrite resolve_last_eq, get_initial_commit_eq. cbn [fst].
  destruct (stored_revision (state s)) as [[|c r]|] eqn:Hs.
  - intros [= Hr <-]. split; [by apply (root_of_first_line env)|]. eauto.
  - intros [= <- <-]. split; [done|]. by left.
  - intros [= Hr <-]. split; [by apply (root_of_first_line env)|]. eauto.
Qed.

(** *** The checkpoint store *)


(** *** Invocations *)

(** X16.  An invocation that ends on an exception has written no
    checkpoint, completed no write of the artifact and printed nothing.
    Either it sent no request and had only run shell commands since the
    module level; or it sent its request and the exception is the one of
    the write of the artifact, whose text cannot be encoded and whose file
    is left empty. *)
Theorem raising_invocation_wrote_no_checkpoint env d fs e :
  result_of env d fs = Raise e →
  checkpoint_writes (trace (after env d fs)) = [] ∧
  artifact_writes (trace (after env d fs)) = [] ∧
  printed (trace (after env d fs)) = [] ∧
  ((generations (trace (after env d fs)) = [] ∧
    ∃ cmds, trace (after env d fs) = trace (boot d fs) ++ (ERun <$> cmds))
   ∨
   (∃ u, generations (trace (after env d fs)) = [(SYSTEM_PROMPT, u)] ∧
         encodable (feedback_of env u) = false ∧
         e = Exn UnicodeEncodeError (encode_error_text (feedback_of env u)) ∧
         last (trace (after env d fs)) = Some (ETruncate (artifact_name env)) ∧
         files (after env d fs) !! artifact_name env = Some [])).
Proof.
  unfold result_of, after.
  destruct (invoke_outcome env d fs)
    as [e' s' Hr|head s' Hh Hl|head last s2 cs s3 Hh Hl Hne Hd Henc
       |head last s2 cs s3 Hh Hl Hne Hd Henc];
    cbn [fst snd]; [|done..|].
  - intros [= ->].
    destruct (quiet_only_ran _ _ Hr (quiet_boot d fs)) as (-> & -> & -> & ->).
    repeat split. left. split; [done|]. by destruct Hr as (_ & _ & ?).
  - intros [= <-].
    pose proof (collected_frame _ _ _ _ _ _ _ _ Hl Hd) as Hr.
    pose proof (quiet_only_ran _ _ Hr (quiet_boot d fs)) as Hq.
    destruct (unwritten_writes env (request_of env fs last head cs) s3 Hq)
      as (-> & -> & -> & ->).
    repeat split. right. eexists. split; [done|]. split; [done|].
    split; [done|]. cbn [unwritten trace files]. split.
    + apply last_Some. eexists (_ ++ [_]). by rewrite <- app_assoc.
    + by rewrite lookup_insert_eq.
Qed.

(** X17.  An invocation sends at most one request and writes at most one
    artifact.  When it writes the checkpoint, it has ended normally and the
    trace ends with the request, the write of the artifact (the reply, or
    the fallback), the write of the checkpoint and the status line, in this
    order, with no write before them: the checkpoint is never advanced
    before the artifact is on disk. *)
Theorem checkpoint_follows_artifact env d fs :
  (length (generations (trace (after env d fs))) ≤ 1)%nat ∧
  (length (artifact_writes (trace (after env d fs))) ≤ 1)%nat ∧
  (checkpoint_writes (trace (after env d fs)) ≠ [] →
   ∃ t u head,
     trace (after env d fs)
       = t ++ [EGenerate SYSTEM_PROMPT u;
               EWriteFile (artifact_name env) (feedback_of env u);
               EWriteState head;
               EPrint (lit "Wrote " ++ artifact_name env)] ∧
     artifact_writes t = [] ∧ checkpoint_writes t = [] ∧
     generations t = [] ∧ printed t = [] ∧
     files (after env d fs) !! artifact_name env = Some (feedback_of env u) ∧
     result_of env d fs = Ok ()).
Proof.
  unfold result_of, after.
  destruct (invoke_outcome env d fs)
    as [e' s' Hr|head s' Hh Hl|head last s2 cs s3 Hh Hl Hne Hd Henc
       |head last s2 cs s3 Hh Hl Hne Hd Henc];
    cbn [fst snd].
  4:{ pose proof (collected_frame _ _ _ _ _ _ _ _ Hl Hd) as Hr.
      pose proof (quiet_only_ran _ _ Hr (quiet_boot d fs)) as Hq.
      destruct (unwritten_writes env (request_of env fs last head cs) s3 Hq)
        as (-> & -> & -> & _).
      repeat split; cbn; (lia || done). }
  - destruct (quiet_only_ran _ _ Hr (quiet_boot d fs)) as (-> & -> & -> & _).
    repeat split; cbn; (lia || done).
  - apply resolve_last_frame in Hl.
    pose proof (only_ran_trans _ _ _ (only_ran_boot_log CMD_HEAD d fs) Hl) as Hr.
    destruct (quiet_only_ran _ _ Hr (quiet_boot d fs)) as (H1 & H2 & H3 & _).
    cbn [log trace]. unfold artifact_writes, checkpoint_writes, generations in *.
    rewrite !omap_app, H1, H2, H3. repeat split; cbn; (lia || done).
  - pose proof (collected_frame _ _ _ _ _ _ _ _ Hl Hd) as Hr.
    pose proof (quiet_only_ran _ _ Hr (quiet_boot d fs)) as Hq.
    destruct (persisted_writes env head (request_of env fs last head cs) s3 Hq)
      as (-> & _ & -> & _).
    split; [cbn; lia|]. split; [cbn; lia|]. intros _.
    exists (trace s3), (request_of env fs last head cs), head.
    destruct Hq as (? & ? & ? & ?). cbn [persisted trace files].
    by rewrite lookup_insert_eq.
Qed.

(** *** The collector *)

(** X5.  With base different from head, [git_diff] runs its commands in
    the order name-status, shortstat, patch, listing, log.  When it
    returns, the five were run; when it raises, the command that failed is
    the last one run, one of the first three, and nothing was run after
    it. *)
Theorem git_diff_runs_in_order env base head s :
  base ≠ head →
  ∃ cmds,
    trace (git_diff env base head s).2 = trace s ++ (ERun <$> cmds) ∧
    cmds `prefix_of` [CMD_NAME_STATUS base head; CMD_SHORTSTAT base head;
                      CMD_PATCH base head; CMD_TREE; CMD_LOG] ∧
    match (git_diff env base head s).1 with
    | Ok cs =>
        cmds = [CMD_NAME_STATUS base head; CMD_SHORTSTAT base head;
                CMD_PATCH base head; CMD_TREE; CMD_LOG]
    | Raise e =>
        (length cmds ≤ 3)%nat ∧
        ∃ c, last cmds = Some c ∧ (sh env c s).1 = Raise e
    end.
Proof.
  intros Hne. rewrite git_diff_ne by done. cbn zeta.
  destruct (run env (CMD_NAME_STATUS base head)) as [ns|e] eqn:Hns;
    [destruct (run env (CMD_SHORTSTAT base head)) as [ss|e] eqn:Hss;
      [destruct (run env (CMD_PATCH base head)) as [p|e] eqn:Hp|]|];
    cbn [fst snd log state files trace].
  - exists [CMD_NAME_STATUS base head; CMD_SHORTSTAT base head;
            CMD_PATCH base head; CMD_TREE; CMD_LOG].
    split; [by rewrite <- !app_assoc|]. done.
  - exists [CMD_NAME_STATUS base head; CMD_SHORTSTAT base head;
            CMD_PATCH base head].
    split; [by rewrite <- !app_assoc|]. split; [by eexists [_; _]|].
    split; [cbn; lia|]. eexists. split; [done|]. by rewrite sh_eq.
  - exists [CMD_NAME_STATUS base head; CMD_SHORTSTAT base head].
    split; [by rewrite <- !app_assoc|]. split; [by eexists [_; _; _]|].
    split; [cbn; lia|]. eexists. split; [done|]. by rewrite sh_eq.
  - exists [CMD_NAME_STATUS base head].
    split; [done|]. split; [by eexists [_; _; _; _]|].
    split; [cbn; lia|]. eexists. split; [done|]. by rewrite sh_eq.
Qed.

(** *** The artifact *)

Lemma artifact_name_head env : hd 0 (artifact_name env) = 77.
Proof. reflexivity. Qed.

(** X6.  [write_feedback] names the artifact after the clock down to
    the minute, seconds left aside: two writes of encodable texts at times
    that agree up to the minute go to the same path and the second text
    replaces the first.  No other path is touched, in particular not the
    two documents the classifier reads, so that the content status is the
    same after the write as before. *)
Theorem write_feedback_overwrites env1 env2 md1 md2 s :
  dt_year (utcnow env1) = dt_year (utcnow env2) →
  dt_month (utcnow env1) = dt_month (utcnow env2) →
  dt_day (utcnow env1) = dt_day (utcnow env2) →
  dt_hour (utcnow env1) = dt_hour (utcnow env2) →
  dt_minute (utcnow env1) = dt_minute (utcnow env2) →
  encodable md1 = true →
  encodable md2 = true →
  ∃ out s1 s2,
    write_feedback env1 md1 s = (Ok out, s1) ∧
    write_feedback env2 md2 s1 = (Ok out, s2) ∧
    out = lit "Meta-Feedback_" ++ strftime_stamp (utcnow env1) ++ lit ".md" ∧
    files s1 !! out = Some md1 ∧
    files s2 !! out = Some md2 ∧
    files s2 = <[out := md2]> (files s) ∧
    (∀ p, p ≠ out → files s2 !! p = files s !! p) ∧
    state s2 = state s ∧
    (detect_content_status env2 s2).1 = (detect_content_status env2 s).1.
Proof.
  intros Hy Hm Hd Hh Hmin He1 He2.
  assert (artifact_name env2 = artifact_name env1) as Hname.
  { unfold artifact_name, strftime_stamp. by rewrite Hy, Hm, Hd, Hh, Hmin. }
  assert (CODE_FILE ≠ artifact_name env1) as Hc.
  { intros H. apply (f_equal (hd 0)) in H. by rewrite artifact_name_head in H. }
  assert (PSEUDO_FILE ≠ artifact_name env1) as Hp.
  { intros H. apply (f_equal (hd 0)) in H. by rewrite artifact_name_head in H. }
  exists (artifact_name env1). eexists _, _.
  split; [by rewrite write_feedback_eq, He1|].
  split; [by rewrite write_feedback_eq, He2, Hname|]. cbn [files state].
  rewrite insert_insert_eq, !lookup_insert_eq. repeat split.
  - intros p Hne. by rewrite lookup_insert_ne.
  - rewrite !detect_content_status_eq. cbn [fst files]. unfold content_status_of.
    by rewrite !lookup_insert_ne.
Qed.

(** *** The classifier *)

(** X14.  A document is classified meaningful only if it is there and
    long enough before stripping: meaningful code needs [algorithm.py] with
    at least 80 characters, meaningful pseudocode [PSEUDOCODE.md] with at
    least 120. *)
Theorem meaningful_needs_content env s :
  ∃ status,
    (detect_content_status env s).1 = Ok status ∧
    (has_code status = true →
     ∃ text, files s !! CODE_FILE = Some text ∧ (80 ≤ len text)%Z) ∧
    (has_pseudo status = true →
     ∃ text, files s !! PSEUDO_FILE = Some text ∧ (120 ≤ len text)%Z).
Proof.
  exists (content_status_of env (files s)). split; [done|].
  unfold content_status_of. cbn [has_code has_pseudo]. split.
  - destruct (files s !! CODE_FILE) as [text|]; cbn [default]; [|done].
    rewrite code_len_eq. intros H%Z.leb_le. exists text. split; [done|].
    unfold id in H.
    pose proof (sublist_len _ _ (strip_comments_sublist text)). lia.
  - destruct (files s !! PSEUDO_FILE) as [text|]; cbn [default]; [|done].
    rewrite pseudo_len_eq. intros H%Z.leb_le. exists text. split; [done|].
    unfold id in H.
    pose proof (sublist_len _ _ (strip_md_sublist text)). lia.
Qed.





(** *** The reply *)

Lemma lstrip_blank s : Forall (λ c, isspace c = true) s → lstrip s = [].
Proof.
  induction 1 as [|c s Hc _ IH]; [done|]. cbn [lstrip]. cbn beta in Hc.
  by rewrite Hc.
Qed.

Lemma strip_blank s : Forall (λ c, isspace c = true) s → strip s = [].
Proof. intros H. unfold strip. by rewrite (lstrip_blank s). Qed.

(** X19.  When the chat service answers with a text that can be encoded,
    the artifact holds the answer stripped of surrounding whitespace; an
    answer of whitespace only gives an empty artifact, which is written all
    the same, and the checkpoint advances. *)
Theorem reply_is_stripped env d fs head last ns ss p content :
  run env CMD_HEAD = Ok head →
  (resolve_last env (boot d fs)).1 = Ok last →
  last ≠ head →
  run env (CMD_NAME_STATUS last head) = Ok ns →
  run env (CMD_SHORTSTAT last head) = Ok ss →
  run env (CMD_PATCH last head) = Ok p →
  (∀ u, chat env SYSTEM_PROMPT u = Ok content) →
  encodable content = true →
  result_of env d fs = Ok () ∧
  artifact_writes (trace (after env d fs))
    = [(artifact_name env, strip content)] ∧
  files (after env d fs) !! artifact_name env = Some (strip content) ∧
  state (after env d fs) = checkpoint_record head ∧
  (Forall (λ c, isspace c = true) content →
   files (after env d fs) !! artifact_name env = Some []).
Proof.
  intros Hh Hl Hne Hns Hss Hp Hchat Henc.
  destruct (invoke_completed env d fs head last ns ss p) as (s3 & Hi & Hr);
    [done..| |].
  { unfold feedback_of. by rewrite Hchat, encodable_strip. }
  pose proof (quiet_only_ran _ _ Hr (quiet_boot d fs)) as Hq.
  destruct (persisted_writes env head
              (request_of env fs last head (collected env ns ss p)) s3 Hq)
    as (Hw & _).
  unfold result_of, after. rewrite Hi. cbn [fst snd]. rewrite Hw.
  cbn [persisted files state]. unfold feedback_of. rewrite Hchat.
  rewrite lookup_insert_eq. repeat split. intros Hb. by rewrite strip_blank.
Qed.

(** X21.  When the chat service answers with a text that cannot be
    encoded as UTF-8 (it holds a lone surrogate), the request has been sent
    and the answer is lost: the write of the artifact raises
    [UnicodeEncodeError] and leaves the file empty, the exception ends the
    invocation, and neither the checkpoint is written nor the status line
    printed. *)
Theorem unencodable_reply_ends_run env d fs head base ns ss p content :
  run env CMD_HEAD = Ok head →
  (resolve_last env (boot d fs)).1 = Ok base →
  base ≠ head →
  run env (CMD_NAME_STATUS base head) = Ok ns →
  run env (CMD_SHORTSTAT base head) = Ok ss →
  run env (CMD_PATCH base head) = Ok p →
  (∀ u, chat env SYSTEM_PROMPT u = Ok content) →
  encodable content = false →
  result_of env d fs
    = Raise (Exn UnicodeEncodeError (encode_error_text (strip content))) ∧
  generations (trace (after env d fs))
    = [(SYSTEM_PROMPT, request_of env fs base head (collected env ns ss p))] ∧
  last (trace (after env d fs)) = Some (ETruncate (artifact_name env)) ∧
  files (after env d fs) !! artifact_name env = Some [] ∧
  artifact_writes (trace (after env d fs)) = [] ∧
  checkpoint_writes (trace (after env d fs)) = [] ∧
  printed (trace (after env d fs)) = [].
Proof.
  intros Hh Hl Hne Hns Hss Hp Hchat Henc.
  destruct (invoke_unwritable env d fs head base ns ss p) as (s3 & Hi & Hr);
    [done..| |].
  { unfold feedback_of. by rewrite Hchat, encodable_strip. }
  pose proof (quiet_only_ran _ _ Hr (quiet_boot d fs)) as Hq.
  destruct (unwritten_writes env
              (request_of env fs base head (collected env ns ss p)) s3 Hq)
    as (Hw & Hc & Hg & Hpr).
  unfold result_of, after. rewrite Hi. cbn [fst snd]. rewrite Hw, Hc, Hg, Hpr.
  cbn [unwritten files trace]. unfold feedback_of. rewrite Hchat.
  rewrite lookup_insert_eq. repeat split.
  apply last_Some. eexists (_ ++ [_]). by rewrite <- app_assoc.
Qed.

(** *** From one run to the next *)

(** X20.  Runs chain: after an invocation that wrote its artifact for
    head [head1], the next invocation, on a new head [head2], resolves its
    head and then asks for the changes from [head1] to [head2]. *)
Theorem next_run_starts_at_previous_head env1 env2 d fs head1 head2 :
  artifact_writes (trace (after env1 d fs)) ≠ [] →
  run env1 CMD_HEAD = Ok head1 →
  head1 ≠ [] →
  run env2 CMD_HEAD = Ok head2 →
  head2 ≠ head1 →
  ∃ rest,
    commands (trace (after env2 (state (after env1 d fs))
                       (files (after env1 d fs))))
      = CMD_HEAD :: CMD_NAME_STATUS head1 head2 :: rest.
Proof.
  intros Hw Hh1 Hne1 Hh2 Hne.
  assert (state (after env1 d fs) = checkpoint_record head1) as ->.
  { revert Hw. unfold after.
    destruct (invoke_outcome env1 d fs)
      as [e' s' Hr|head s' Hh Hl|head last s2 cs s3 Hh Hl Hn Hd Henc
         |head last s2 cs s3 Hh Hl Hn Hd Henc]; cbn [snd].
    4:{ pose proof (collected_frame _ _ _ _ _ _ _ _ Hl Hd) as Hr.
        pose proof (quiet_only_ran _ _ Hr (quiet_boot d fs)) as Hq.
        by destruct (unwritten_writes env1 (request_of env1 fs last head cs)
                       s3 Hq) as (-> & _). }
    - by destruct (quiet_only_ran _ _ Hr (quiet_boot d fs)) as (-> & _).
    - apply resolve_last_frame in Hl.
      pose proof (only_ran_trans _ _ _ (only_ran_boot_log CMD_HEAD d fs) Hl) as Hr.
      destruct (quiet_only_ran _ _ Hr (quiet_boot d fs)) as (H1 & _).
      cbn [log trace]. unfold artifact_writes in *. by rewrite omap_app, H1.
    - intros _. rewrite Hh1 in Hh. by injection Hh as <-. }
  set (fs2 := files (after env1 d fs)).
  unfold after, invoke. rewrite script_eq, main_eq. cbn zeta. rewrite Hh2.
  rewrite resolve_last_eq.
  change (booted (start (checkpoint_record head1) fs2))
    with (start (checkpoint_record head1) fs2).
  change (state (log (ERun CMD_HEAD) (start (checkpoint_record head1) fs2)))
    with (checkpoint_record head1).
  rewrite stored_checkpoint_record.
  destruct head1 as [|c r]; [done|].
  rewrite decide_False by done. rewrite git_diff_ne by done. cbn zeta.
  repeat case_match; simplify_eq;
    cbn [snd persisted unwritten log trace files state start];
    unfold commands; rewrite ?omap_app; cbn; eauto.
Qed.

(** *** The summary *)

(** X15.  The summary has between one and three notes; its last note is
    the one on missing tests exactly when no test file exists, and the note
    that nothing substantial was detected is present exactly when neither
    document is meaningful. *)
Theorem notes_of_summary status :
  (1 ≤ length (details_of status) ≤ 3)%nat ∧
  (last (details_of status) = Some NO_TESTS ↔ tests_exist status = false) ∧
  (NO_SUBSTANCE ∈ details_of status ↔
   has_code status = false ∧ has_pseudo status = false).
Proof.
  destruct status as [cl pl hc hp te]. unfold details_of.
  cbn [has_code has_pseudo tests_exist code_len pseudo_len].
  assert (NO_SUBSTANCE ≠ NO_TESTS) as H1 by (by vm_compute).
  assert (∀ n, lit "Detected non-trivial code in algorithm.py (" ++ [approx]
               ++ fmt_int n ++ lit " chars after stripping)." ≠ NO_TESTS) as H2.
  { intros n H. apply (f_equal (hd 0)) in H. by vm_compute in H. }
  assert (∀ n, lit "Detected non-trivial code in algorithm.py (" ++ [approx]
               ++ fmt_int n ++ lit " chars after stripping)." ≠ NO_SUBSTANCE) as H4.
  { intros n H. apply (f_equal (hd 0)) in H. by vm_compute in H. }
  assert (∀ n, lit "Detected non-trivial pseudocode in PSEUDOCODE.md ("
               ++ [approx] ++ fmt_int n ++ lit " chars after stripping)."
               ≠ NO_SUBSTANCE) as H5.
  { intros n H. apply (f_equal (hd 0)) in H. by vm_compute in H. }
  assert (∀ n, lit "Detected non-trivial pseudocode in PSEUDOCODE.md ("
               ++ [approx] ++ fmt_int n ++ lit " chars after stripping)."
               ≠ NO_TESTS) as H6.
  { intros n H. apply (f_equal (hd 0)) in H. by vm_compute in H. }
  split; [|split].
  - destruct hc, hp, te; cbn; lia.
  - destruct hc, hp, te; cbn [negb andb app last];
      (split; intros H; [|done || by exfalso]);
      first [done | exfalso; apply (inj Some) in H; by eauto].
  - destruct hc, hp, te; cbn [negb andb app];
      (split; [intros H|intros [? ?]]); try done; try (by left);
      exfalso; repeat (apply elem_of_cons in H as [H|H]);
      try (by apply elem_of_nil in H); symmetry in H; by eauto.
Qed.

(** *** Delimited spans *)

Lemma startswith_app p t : startswith p (p ++ t) = true.
Proof. induction p as [|a p IH]; [done|]. cbn. by rewrite N.eqb_refl. Qed.

Lemma startswith_other a p x t : a ≠ x → startswith (a :: p) (x :: t) = false.
Proof. intros H. cbn. by rewrite (proj2 (N.eqb_neq a x)). Qed.

Lemma find_tail p c s : find p (c :: s) = None → find p s = None.
Proof.
  cbn [find]. destruct (startswith p (c :: s)); [done|].
  by destruct (find p s).
Qed.

Lemma find_drop p k s : find p s = None → find p (drop k s) = None.
Proof.
  revert s. induction k as [|k IH]; intros s H; [done|].
  destruct s as [|c s]; [done|]. cbn [drop]. eauto using find_tail.
Qed.

Lemma find_present p x y : is_Some (find p (x ++ p ++ y)).
Proof.
  induction x as [|a x IH]; cbn [app].
  - destruct p as [|b p]; [destruct y; by eexists|].
    cbn [find app]. change (b :: p ++ y) with ((b :: p) ++ y).
    rewrite startswith_app. by eexists.
  - cbn [find]. destruct (startswith p (a :: x ++ p ++ y)); [by eexists|].
    destruct IH as [i ->]. by eexists.
Qed.

Lemma sub_spans_skip open close b x t :
  sub_spans open close (length x) b (x ++ t) = sub_spans open close 0 b t.
Proof. induction x as [|a x IH]; [done|]. done. Qed.

Lemma sub_spans_outside a open close pre t :
  a ∉ pre →
  sub_spans (a :: open) close 0 false (pre ++ t)
    = pre ++ sub_spans (a :: open) close 0 false t.
Proof.
  induction pre as [|x pre IH]; [done|].
  intros [Hx Hpre]%not_elem_of_cons. cbn [app sub_spans].
  rewrite startswith_other by done. cbn [andb]. by rewrite IH.
Qed.

Lemma sub_spans_inside a open close body t :
  a ∉ body →
  sub_spans open (a :: close) 0 true (body ++ t)
    = sub_spans open (a :: close) 0 true t.
Proof.
  induction body as [|x body IH]; [done|].
  intros [Hx Hbody]%not_elem_of_cons. cbn [app sub_spans].
  rewrite startswith_other by done. by rewrite IH.
Qed.

Lemma sub_spans_enter a open b close rest :
  is_Some (find (b :: close) rest) →
  sub_spans (a :: open) (b :: close) 0 false ((a :: open) ++ rest)
    = sub_spans (a :: open) (b :: close) 0 true rest.
Proof.
  intros Hc. cbn [app sub_spans].
  change (a :: open ++ rest) with ((a :: open) ++ rest).
  rewrite startswith_app, drop_app_length, bool_decide_true by done.
  cbn [andb length pred]. apply sub_spans_skip.
Qed.

Lemma sub_spans_leave open b close post :
  sub_spans open (b :: close) 0 true ((b :: close) ++ post)
    = sub_spans open (b :: close) 0 false post.
Proof.
  cbn [app sub_spans].
  change (b :: close ++ post) with ((b :: close) ++ post).
  rewrite startswith_app. cbn [length pred]. apply sub_spans_skip.
Qed.

Lemma sub_delimited_span a open b close pre body post :
  a ∉ pre → b ∉ body →
  sub_delimited (a :: open) (b :: close)
      (pre ++ (a :: open) ++ body ++ (b :: close) ++ post)
    = pre ++ sub_delimited (a :: open) (b :: close) post.
Proof.
  intros Hpre Hbody. unfold sub_delimited.
  rewrite sub_spans_outside by done.
  rewrite sub_spans_enter by apply find_present.
  rewrite sub_spans_inside by done. by rewrite sub_spans_leave.
Qed.

Lemma sub_spans_unclosed open close s :
  (∀ k, find close (drop (k + length open) s) = None) →
  sub_spans open close 0 false s = s.
Proof.
  induction s as [|c s IH]; intros H; [done|]. cbn [sub_spans].
  rewrite (bool_decide_false (is_Some (find close (drop (length open) (c :: s))))).
  2:{ pose proof (H 0%nat) as H0. cbn [Nat.add] in H0. rewrite H0.
      by intros [? ?]. }
  rewrite andb_false_r. f_equal. apply IH. intros k.
  apply (H (S k)).
Qed.

Lemma sub_hash_comments_clean pre t :
  35 ∉ pre →
  sub_hash_comments false (pre ++ t) = pre ++ sub_hash_comments false t.
Proof.
  induction pre as [|x pre IH]; [done|].
  intros [Hx Hpre]%not_elem_of_cons. cbn [app sub_hash_comments].
  rewrite (proj2 (N.eqb_neq x 35)) by done. by rewrite IH.
Qed.

(** X10.  A fenced code block counts for nothing in the pseudocode: when
    the text before the fence and the body of the block hold no backtick,
    [strip_md] of the text is [strip_md] of the text without the block. *)
Theorem fenced_block_dropped pre body post :
  96 ∉ pre → 96 ∉ body →
  strip_md (pre ++ triple 96 ++ body ++ triple 96 ++ post)
    = strip_md (pre ++ post).
Proof.
  intros Hpre Hbody. unfold strip_md, triple.
  rewrite sub_delimited_span by done.
  unfold sub_delimited at 4. by rewrite sub_spans_outside.
Qed.

(** X9.  A docstring in triple double quotes counts for nothing: when the
    text before it and its body hold neither [#] nor a double quote,
    stripping the text gives what stripping it without the docstring
    gives. *)
Theorem docstring_dropped pre body post :
  35 ∉ pre → 34 ∉ pre → 35 ∉ body → 34 ∉ body →
  strip_comments_and_ws_py
      (pre ++ triple dquote ++ body ++ triple dquote ++ post)
    = strip_comments_and_ws_py (pre ++ post).
Proof.
  intros Hp1 Hp2 Hb1 Hb2. unfold strip_comments_and_ws_py, triple, dquote.
  assert (35 ∉ [34; 34; 34]) as Hq.
  { intros H. repeat (apply elem_of_cons in H as [H|H]); try done.
    by apply elem_of_nil in H. }
  assert (35 ∉ pre ++ [34; 34; 34] ++ body ++ [34; 34; 34]) as Hall
    by (by rewrite !not_elem_of_app).
  replace (pre ++ [34; 34; 34] ++ body ++ [34; 34; 34] ++ post)
    with ((pre ++ [34; 34; 34] ++ body ++ [34; 34; 34]) ++ post)
    by (by rewrite <- !app_assoc).
  rewrite sub_hash_comments_clean by done.
  rewrite (sub_hash_comments_clean pre post) by done.
  rewrite <- !app_assoc.
  rewrite sub_delimited_span by done.
  unfold sub_delimited at 4. by rewrite sub_spans_outside.
Qed.

(** X12.  A fence that is never closed hides nothing: when no backtick
    precedes it and no fence follows it, the fence substitution returns the
    text unchanged. *)
Theorem unclosed_fence_kept pre post :
  96 ∉ pre →
  find (triple 96) post = None →
  sub_delimited (triple 96) (triple 96) (pre ++ triple 96 ++ post)
    = pre ++ triple 96 ++ post.
Proof.
  intros Hpre Hpost. unfold sub_delimited, triple.
  rewrite sub_spans_outside by done. f_equal.
  apply sub_spans_unclosed. intros k. rewrite Nat.add_comm.
  rewrite <- drop_drop. change (drop (length [96; 96; 96]) ([96; 96; 96] ++ post)) with post.
  by apply find_drop.
Qed.

Lemma sub_delimited_absent a open close s :
  a ∉ s → sub_delimited (a :: open) close s = s.
Proof.
  intros H. unfold sub_delimited.
  rewrite <- (app_nil_r s) at 1. rewrite sub_spans_outside by done.
  by rewrite app_nil_r.
Qed.

(** X11.  An HTML comment counts for nothing in the pseudocode: in a text
    without backticks, when there is no [<] before the comment and no [-]
    in its body, [strip_md] of the text is [strip_md] of the text without
    the comment. *)
Theorem html_comment_dropped pre body post :
  96 ∉ pre → 96 ∉ body → 96 ∉ post →
  60 ∉ pre → 45 ∉ body →
  strip_md (pre ++ lit "<!--" ++ body ++ lit "-->" ++ post)
    = strip_md (pre ++ post).
Proof.
  intros Hp Hb Hq Hpre Hbody. unfold strip_md, triple.
  assert (96 ∉ lit "<!--") as H1.
  { intros H. repeat (apply elem_of_cons in H as [H|H]); try done.
    by apply elem_of_nil in H. }
  assert (96 ∉ lit "-->") as H2.
  { intros H. repeat (apply elem_of_cons in H as [H|H]); try done.
    by apply elem_of_nil in H. }
  rewrite !sub_delimited_absent by (by rewrite !not_elem_of_app).
  change (lit "<!--") with (60 :: lit "!--").
  change (lit "-->") with (45 :: lit "->").
  rewrite sub_delimited_span by done.
  unfold sub_delimited at 2. by rewrite sub_spans_outside.
Qed.

(** *** Instances of the properties above *)

Lemma resolve_last_never_empty_witness :
  sha_root ≠ [] ∧
  (stored_revision
     (state (start (Dir (Document (JObject {[ LAST_PROCESSED := JStr [] ]}))) ∅))
     = Some sha_root ∨
   ((stored_revision
       (state (start (Dir (Document (JObject {[ LAST_PROCESSED := JStr [] ]}))) ∅))
       = None ∨
     stored_revision
       (state (start (Dir (Document (JObject {[ LAST_PROCESSED := JStr [] ]}))) ∅))
       = Some []) ∧
    (get_initial_commit (demo_env sha_root sha_head true service_down)
       (start (Dir (Document (JObject {[ LAST_PROCESSED := JStr [] ]}))) ∅)).1
      = Ok sha_root)).
Proof.
  eapply (resolve_last_never_empty
            (demo_env sha_root sha_head true service_down)
            (start (Dir (Document (JObject {[ LAST_PROCESSED := JStr [] ]}))) ∅)).
  vm_compute. reflexivity.
Defined.

Lemma raising_invocation_wrote_no_checkpoint_witness :
  checkpoint_writes
    (trace (after (demo_env sha_root sha_head true (Ok half_pair_reply))
              NoDir ∅)) = [] ∧
  printed
    (trace (after (demo_env sha_root sha_head true (Ok half_pair_reply))
              NoDir ∅)) = [].
Proof.
  destruct (raising_invocation_wrote_no_checkpoint
              (demo_env sha_root sha_head true (Ok half_pair_reply)) NoDir ∅
              (Exn UnicodeEncodeError
                 (lit "'utf-8' codec can't encode character '\ud83d' in position 10: surrogates not allowed")))
    as (Hc & _ & Hp & _); [vm_compute; reflexivity|].
  split; [exact Hc|exact Hp].
Defined.

Lemma checkpoint_follows_artifact_witness :
  ∃ t u head,
    trace (after (demo_env sha_root sha_head true service_down) NoDir ∅)
      = t ++ [EGenerate SYSTEM_PROMPT u;
              EWriteFile
                (artifact_name (demo_env sha_root sha_head true service_down))
                (feedback_of (demo_env sha_root sha_head true service_down) u);
              EWriteState head;
              EPrint (lit "Wrote " ++
                      artifact_name
                        (demo_env sha_root sha_head true service_down))] ∧
    artifact_writes t = [] ∧ checkpoint_writes t = [] ∧
    generations t = [] ∧ printed t = [] ∧
    files (after (demo_env sha_root sha_head true service_down) NoDir ∅)
      !! artifact_name (demo_env sha_root sha_head true service_down)
      = Some (feedback_of (demo_env sha_root sha_head true service_down) u) ∧
    result_of (demo_env sha_root sha_head true service_down) NoDir ∅ = Ok ().
Proof.
  apply (checkpoint_follows_artifact
           (demo_env sha_root sha_head true service_down) NoDir ∅).
  vm_compute. discriminate.
Defined.

Lemma git_diff_runs_in_order_witness :
  ∃ cmds,
    trace (git_diff (demo_env sha_root sha_head false service_down)
             sha_root sha_head (start NoDir ∅)).2
      = trace (start NoDir ∅) ++ (ERun <$> cmds) ∧
    (length cmds ≤ 3)%nat.
Proof.
  destruct (git_diff_runs_in_order
              (demo_env sha_root sha_head false service_down)
              sha_root sha_head (start NoDir ∅))
    as (cmds & Ht & _ & Hr); [vm_compute; discriminate|].
  exists cmds. split; [exact Ht|].
  replace (git_diff (demo_env sha_root sha_head false service_down)
             sha_root sha_head (start NoDir ∅)).1
    with (@Raise ChangeSet
            (Exn CalledProcessError
               (lit "Command returned non-zero exit status 128."))) in Hr
    by (vm_compute; reflexivity).
  apply Hr.
Defined.

Lemma write_feedback_overwrites_witness :
  ∃ s1 s2,
    write_feedback (demo_env sha_root sha_head true service_down)
      (lit "first") (start NoDir (sample_files 80 120))
      = (Ok (lit "Meta-Feedback_20250101_0930.md"), s1) ∧
    write_feedback
      (seconds_later (demo_env sha_root sha_head true service_down))
      (lit "second") s1
      = (Ok (lit "Meta-Feedback_20250101_0930.md"), s2) ∧
    files s2 !! lit "Meta-Feedback_20250101_0930.md" = Some (lit "second") ∧
    files s2 !! CODE_FILE = Some (sample_code 80).
Proof.
  destruct (write_feedback_overwrites
              (demo_env sha_root sha_head true service_down)
              (seconds_later (demo_env sha_root sha_head true service_down))
              (lit "first") (lit "second") (start NoDir (sample_files 80 120)))
    as (out & s1 & s2 & H1 & H2 & Hout & _ & H4 & _ & H6 & _);
    try reflexivity.
  assert (out = lit "Meta-Feedback_20250101_0930.md") as ->
    by (rewrite Hout; vm_compute; reflexivity).
  exists s1, s2. split; [exact H1|]. split; [exact H2|]. split; [exact H4|].
  rewrite H6; [vm_compute; reflexivity|vm_compute; discriminate].
Defined.

Lemma meaningful_needs_content_witness :
  ∃ text,
    files (start NoDir (sample_files 80 115)) !! CODE_FILE = Some text ∧
    (80 ≤ len text)%Z.
Proof.
  destruct (meaningful_needs_content
              (demo_env sha_root sha_head true service_down)
              (start NoDir (sample_files 80 115)))
    as (st & Hd & Hc & _).
  apply Hc. injection Hd as <-. vm_compute. reflexivity.
Defined.


Lemma reply_is_stripped_witness :
  result_of (demo_env sha_root sha_head true (Ok (lit " 	" ++ [nl]))) NoDir ∅
    = Ok () ∧
  files (after (demo_env sha_root sha_head true (Ok (lit " 	" ++ [nl]))) NoDir ∅)
    !! artifact_name (demo_env sha_root sha_head true (Ok (lit " 	" ++ [nl])))
    = Some [] ∧
  state (after (demo_env sha_root sha_head true (Ok (lit " 	" ++ [nl]))) NoDir ∅)
    = checkpoint_record sha_head.
Proof.
  destruct (reply_is_stripped
              (demo_env sha_root sha_head true (Ok (lit " 	" ++ [nl])))
              NoDir ∅ sha_head sha_root
              (lit "M	algorithm.py")
              (lit "1 file changed, 1 insertion(+), 1 deletion(-)")
              (lit "@@ -1 +1 @@" ++ [nl] ++ lit "-x = 1" ++ [nl] ++ lit "+x = 2")
              (lit " 	" ++ [nl]))
    as (H1 & _ & _ & H4 & H5);
    try (vm_compute; reflexivity); [vm_compute; discriminate|].
  split; [exact H1|]. split; [|exact H4].
  apply H5. repeat constructor.
Defined.

Lemma unencodable_reply_ends_run_witness :
  result_of (demo_env sha_root sha_head true (Ok half_pair_reply)) NoDir ∅
    = Raise (Exn UnicodeEncodeError
               (lit "'utf-8' codec can't encode character '\ud83d' in position 10: surrogates not allowed")) ∧
  files (after (demo_env sha_root sha_head true (Ok half_pair_reply)) NoDir ∅)
    !! lit "Meta-Feedback_20250101_0930.md" = Some [] ∧
  checkpoint_writes
    (trace (after (demo_env sha_root sha_head true (Ok half_pair_reply))
              NoDir ∅)) = [].
Proof.
  destruct (unencodable_reply_ends_run
              (demo_env sha_root sha_head true (Ok half_pair_reply))
              NoDir ∅ sha_head sha_root
              (lit "M	algorithm.py")
              (lit "1 file changed, 1 insertion(+), 1 deletion(-)")
              (lit "@@ -1 +1 @@" ++ [nl] ++ lit "-x = 1" ++ [nl] ++ lit "+x = 2")
              half_pair_reply)
    as (H1 & _ & _ & H4 & _ & H6 & _);
    try (vm_compute; reflexivity); [vm_compute; discriminate|].
  split; [|split; [exact H4|exact H6]].
  rewrite H1. vm_compute. reflexivity.
Defined.

Lemma next_run_starts_at_previous_head_witness :
  ∃ rest,
    commands
      (trace (after (demo_env sha_root (lit "0c3a6fe5ab") true service_down)
                (state (after (demo_env sha_root sha_head true service_down)
                          NoDir ∅))
                (files (after (demo_env sha_root sha_head true service_down)
                          NoDir ∅))))
      = CMD_HEAD :: CMD_NAME_STATUS sha_head (lit "0c3a6fe5ab") :: rest.
Proof.
  apply (next_run_starts_at_previous_head
           (demo_env sha_root sha_head true service_down)
           (demo_env sha_root (lit "0c3a6fe5ab") true service_down)
           NoDir ∅ sha_head (lit "0c3a6fe5ab"));
    try (vm_compute; reflexivity); vm_compute; discriminate.
Defined.

Lemma notes_of_summary_witness :
  last (details_of {| code_len := 95; pseudo_len := 0; has_code := true;
                      has_pseudo := false; tests_exist := false |})
    = Some NO_TESTS.
Proof.
  apply (notes_of_summary
           {| code_len := 95; pseudo_len := 0; has_code := true;
              has_pseudo := false; tests_exist := false |}).
  reflexivity.
Defined.

Lemma fenced_block_dropped_witness :
  strip_md (lit "Plan: sort, then scan." ++ [nl] ++ triple 96
            ++ lit "for x in xs: pass" ++ triple 96 ++ lit " Done.")
    = strip_md ((lit "Plan: sort, then scan." ++ [nl]) ++ lit " Done.").
Proof.
  rewrite (app_assoc (lit "Plan: sort, then scan.") [nl]).
  apply fenced_block_dropped;
    apply (bool_decide_unpack _); vm_compute; exact I.
Defined.

Lemma html_comment_dropped_witness :
  strip_md (lit "Step 1 " ++ lit "<!--" ++ lit " draft only " ++ lit "-->"
            ++ lit " Step 2")
    = strip_md (lit "Step 1 " ++ lit " Step 2").
Proof.
  apply html_comment_dropped;
    apply (bool_decide_unpack _); vm_compute; exact I.
Defined.

Lemma docstring_dropped_witness :
  strip_comments_and_ws_py
    (lit "def f(x):" ++ triple dquote ++ lit "Return x." ++ triple dquote
     ++ lit " return x")
    = strip_comments_and_ws_py (lit "def f(x):" ++ lit " return x").
Proof.
  apply docstring_dropped;
    apply (bool_decide_unpack _); vm_compute; exact I.
Defined.

Lemma unclosed_fence_kept_witness :
  sub_delimited (triple 96) (triple 96)
    (lit "Idea: " ++ triple 96 ++ lit "loop over the input")
    = lit "Idea: " ++ triple 96 ++ lit "loop over the input".
Proof.
  apply unclosed_fence_kept.
  - apply (bool_decide_unpack _). vm_compute. exact I.
  - vm_compute. reflexivity.
Defined.

Lemma generation_failure_recovered_witness :
  result_of (demo_env sha_root sha_head true service_down) NoDir ∅ = Ok () ∧
  files (after (demo_env sha_root sha_head true service_down) NoDir ∅)
    !! artifact_name (demo_env sha_root sha_head true service_down)
    = Some (fallback_document (Exn ServiceError (lit "Connection error."))) ∧
  state (after (demo_env sha_root sha_head true service_down) NoDir ∅)
    = checkpoint_record sha_head.
Proof.
  destruct (generation_failure_recovered
              (demo_env sha_root sha_head true service_down)
              NoDir ∅ sha_head sha_root
              (lit "M	algorithm.py")
              (lit "1 file changed, 1 insertion(+), 1 deletion(-)")
              (lit "@@ -1 +1 @@" ++ [nl] ++ lit "-x = 1" ++ [nl] ++ lit "+x = 2")
              (Exn ServiceError (lit "Connection error.")))
    as (H1 & _ & _ & _ & H4 & H5);
    try (vm_compute; reflexivity); [vm_compute; discriminate|].
  split; [exact H1|]. split; [|exact H4].
  apply H5. apply (bool_decide_unpack _). vm_compute. exact I.
Defined.
